(** * Repairium RAG API: the file-ingestion pipeline of [main.py]

    A shallow embedding of [add_file_to_library] and [download_file_from_uri]
    (main.py, lines 248-329) together with the Python and library primitives
    they call: [os.path.join], [os.path.exists], [os.remove], [open]/[write],
    [httpx.AsyncClient.get], [Response.raise_for_status], the llmware
    [Library] calls and the pydantic response model.

    The code is effectful: it talks to a library store, to the network and to
    the local filesystem, and it logs.  All of this is threaded through a
    [World] by a small state-and-exception monad.  What the external
    collaborators answer is not fixed by this repository, so it is supplied by
    an environment record [Env] of oracles. *)

From Stdlib Require Import ZArith Ascii String List Lia.
From stdpp Require Import base option gmap strings list.

Set Warnings "-register-all".
Local Open Scope string_scope.
Local Open Scope Z_scope.
Local Open Scope list_scope.

(** ** Python values and exceptions *)

(** The values an external parser may hand back.  Only what the pipeline
    inspects matters: truthiness, and whether the value is a [dict]. *)
Inductive pyval : Type :=
| PNone
| PBool (b : bool)
| PInt (z : Z)
| PStr (s : string)
| PDict (d : list (string * pyval)).

(** Python truth value testing ([bool(v)]). *)
Definition truthy (v : pyval) : bool :=
  match v with
  | PNone => false
  | PBool b => b
  | PInt z => negb (z =? 0)
  | PStr s => negb (String.eqb s "")
  | PDict d => match d with [] => false | _ :: _ => true end
  end.

(** [a or b] on values. *)
Definition py_or (a b : pyval) : pyval := if truthy a then a else b.

(** The part of the exception hierarchy the handlers discriminate on.
    [httpx.HTTPError] is a subclass of [Exception]; it is the common base of
    the transport errors and of [HTTPStatusError].  [BaseExceptionC] stands
    for the exceptions that are not [Exception]s ([KeyboardInterrupt],
    [SystemExit], ...). *)
Inductive ExnClass : Type := HTTPErrorC | ExceptionC | BaseExceptionC.

Record exn : Type := Exn { exn_class : ExnClass; exn_str : string }.

(** [isinstance(e, httpx.HTTPError)] *)
Definition is_HTTPError (e : exn) : bool :=
  match exn_class e with HTTPErrorC => true | _ => false end.

(** [isinstance(e, Exception)] *)
Definition is_Exception (e : exn) : bool :=
  match exn_class e with BaseExceptionC => false | _ => true end.

Definition OSError (msg : string) : exn := Exn ExceptionC msg.
Definition ValidationError (msg : string) : exn := Exn ExceptionC msg.
Definition HTTPStatusError (msg : string) : exn := Exn HTTPErrorC msg.

Inductive Result (A : Type) : Type :=
| Ok (a : A)
| Raise (e : exn).
Arguments Ok {A} a.
Arguments Raise {A} e.

(** ** Paths: [os.path.join] (posixpath) *)

Definition sep : string := "/".

Fixpoint endswith_sep (s : string) : bool :=
  match s with
  | EmptyString => false
  | String c EmptyString => Ascii.eqb c "/"%char
  | String _ rest => endswith_sep rest
  end.

Definition startswith_sep (s : string) : bool :=
  match s with
  | String c _ => Ascii.eqb c "/"%char
  | EmptyString => false
  end.

(** [posixpath.join(a, b)]:
    an absolute [b] replaces [a]; otherwise [b] is appended, with a separator
    unless [a] is empty or already ends in one. *)
Definition os_path_join (a b : string) : string :=
  if startswith_sep b then b
  else if (String.eqb a "" || endswith_sep a)%bool then a +:+ b
  else a +:+ sep +:+ b.

(** ** HTTP responses and status codes *)

Record Response : Type := mkResponse {
  status_code : Z;
  content : list Byte.byte
}.

(** [Response.is_success]: a 2xx status. *)
Definition is_success (r : Response) : bool :=
  (200 <=? status_code r) && (status_code r <=? 299).

Definition HTTP_400_BAD_REQUEST : Z := 400.
Definition HTTP_500_INTERNAL_SERVER_ERROR : Z := 500.

(** ** Request and response models *)

Record AddFileRequest : Type := mkAddFileRequest {
  filename : string;
  library_name : string;
  blob_uri : string
}.

Record AddFileResponse : Type := mkAddFileResponse {
  resp_filename : string;
  resp_library_name : string;
  parsing_output : list (string * pyval);
  message : string
}.

(** Construction of the pydantic model: the field [parsing_output: dict] takes
    a [dict]; the other values the parser model can produce are rejected with
    a [ValidationError], whose text is pydantic's ([error_str]). *)
Definition AddFileResponse_init (error_str : pyval -> string)
    (fname lname : string) (po : pyval) (msg : string) : Result AddFileResponse :=
  match po with
  | PDict d => Ok (mkAddFileResponse fname lname d msg)
  | _ => Raise (ValidationError (error_str po))
  end.

(** What the endpoint hands to the framework. *)
Inductive Outcome : Type :=
| Returned (r : AddFileResponse)
| HTTPException (status : Z) (detail : string)
| Propagated (e : exn).

(** ** Log records and the trace of external calls *)

Inductive Level : Type := INFO | WARNING | ERROR.

(** An f-string: literal text and interpolated values. *)
Inductive fpart : Type :=
| Lit (s : string)
| Val (v : pyval).

Inductive Event : Type :=
| Log (level : Level) (msg : list fpart)
| CallLoadLibrary (name : string)
| CallCreateNewLibrary (name : string)
| CallGet (uri : string) (follow_redirects : bool) (timeout : Z)
| CallOpenWb (path : string)
| CallWrite (path : string) (data : list Byte.byte)
| CallAddFile (path : string)
| CallExists (path : string)
| CallRemove (path : string).

Definition is_get (ev : Event) : bool :=
  match ev with CallGet _ _ _ => true | _ => false end.
Definition is_add_file (ev : Event) : bool :=
  match ev with CallAddFile _ => true | _ => false end.
Definition is_create (ev : Event) : bool :=
  match ev with CallCreateNewLibrary _ => true | _ => false end.
Definition is_file_write (ev : Event) : bool :=
  match ev with CallOpenWb _ | CallWrite _ _ => true | _ => false end.

(** The local filesystem: the regular files, by the path string used to open
    them. *)
Abbreviation FS := (gmap string (list Byte.byte)).

Section Pipeline.

(** The state of the llmware library store and the [Library] objects it hands
    out are opaque to this code. *)
Context {Store Library : Type}.

Record World : Type := mkWorld {
  fs : FS;
  store : Store;
  trace : list Event
}.

(** ** The environment: what the collaborators answer

    - [gettempdir] is [tempfile.gettempdir()];
    - [load_library], [create_new_library] and [add_file] are the llmware
      calls; the parser reads the staged file, so it sees the filesystem;
    - [client_get] is the answer of [client.get(uri, follow_redirects=True)]:
      a response with a status and a body, or an exception;
    - [status_error_str] is the text httpx gives an [HTTPStatusError], and
      [validation_error_str] the text pydantic gives a [ValidationError];
    - [open_error], [write_error] and [remove_error] say when the operating
      system refuses an operation (they carry the text of the [OSError]). *)
Record Env : Type := mkEnv {
  gettempdir : string;
  load_library : string -> Store -> Result Library * Store;
  create_new_library : string -> Store -> Result Library * Store;
  add_file : Library -> string -> FS * Store -> Result pyval * (FS * Store);
  client_get : string -> Result Response;
  status_error_str : string -> Response -> string;
  validation_error_str : pyval -> string;
  open_error : string -> FS -> option string;
  write_error : string -> list Byte.byte -> FS -> option string;
  remove_error : string -> FS -> option string
}.

(** ** The monad: state passing over [World], with exceptions *)

Definition M (A : Type) : Type := World -> Result A * World.

Definition ret {A} (a : A) : M A := fun w => (Ok a, w).

Definition raise {A} (e : exn) : M A := fun w => (Raise e, w).

Definition bind {A B} (m : M A) (k : A -> M B) : M B :=
  fun w =>
    match m w with
    | (Ok a, w') => k a w'
    | (Raise e, w') => (Raise e, w')
    end.

(** [try: m  except <pred>: h] -- the handler runs on the exceptions the
    clause matches, the others pass through. *)
Definition try_except {A} (m : M A) (catches : exn -> bool) (h : exn -> M A) : M A :=
  fun w =>
    match m w with
    | (Ok a, w') => (Ok a, w')
    | (Raise e, w') => if catches e then h e w' else (Raise e, w')
    end.

Notation "x <- m ;; k" := (bind m (fun x => k))
  (at level 100, m at next level, right associativity).
Notation "m ;;; k" := (bind m (fun _ => k))
  (at level 100, right associativity).

(** Appending a record to the trace; [emit] is the same as a computation. *)
Definition record (ev : Event) (w : World) : World :=
  mkWorld (fs w) (store w) (trace w ++ [ev]).

Definition emit (ev : Event) : M unit := fun w => (Ok tt, record ev w).

Definition logger_info (msg : list fpart) : M unit := emit (Log INFO msg).
Definition logger_warning (msg : list fpart) : M unit := emit (Log WARNING msg).
Definition logger_error (msg : list fpart) : M unit := emit (Log ERROR msg).

Variable env : Env.

(** ** Primitives *)

(** [Library().load_library(name)] *)
Definition Library_load_library (name : string) : M Library :=
  emit (CallLoadLibrary name) ;;;
  fun w =>
    let '(r, s') := load_library env name (store w) in
    (r, mkWorld (fs w) s' (trace w)).

(** [Library().create_new_library(name)] *)
Definition Library_create_new_library (name : string) : M Library :=
  emit (CallCreateNewLibrary name) ;;;
  fun w =>
    let '(r, s') := create_new_library env name (store w) in
    (r, mkWorld (fs w) s' (trace w)).

(** [library.add_file(path)] *)
Definition library_add_file (library : Library) (path : string) : M pyval :=
  emit (CallAddFile path) ;;;
  fun w =>
    let '(r, (fs', s')) := add_file env library path (fs w, store w) in
    (r, mkWorld fs' s' (trace w)).

(** [httpx.AsyncClient(timeout=t).get(uri, follow_redirects=fr)] *)
Definition AsyncClient_get (timeout : Z) (uri : string) (follow_redirects : bool)
  : M Response :=
  emit (CallGet uri follow_redirects timeout) ;;;
  fun w => (client_get env uri, w).

(** [response.raise_for_status()] *)
Definition raise_for_status (uri : string) (response : Response) : M unit :=
  if is_success response then ret tt
  else raise (HTTPStatusError (status_error_str env uri response)).

(** [open(path, 'wb')]: creates the file, or truncates it. *)
Definition open_wb (path : string) : M unit :=
  emit (CallOpenWb path) ;;;
  fun w =>
    match open_error env path (fs w) with
    | Some msg => (Raise (OSError msg), w)
    | None => (Ok tt, mkWorld (<[path := []]> (fs w)) (store w) (trace w))
    end.

(** [f.write(data)] and the close at the end of the [with] block.  When the
    write fails, the file that [open] created stays as it is. *)
Definition file_write (path : string) (data : list Byte.byte) : M unit :=
  emit (CallWrite path data) ;;;
  fun w =>
    match write_error env path data (fs w) with
    | Some msg => (Raise (OSError msg), w)
    | None => (Ok tt, mkWorld (<[path := data]> (fs w)) (store w) (trace w))
    end.

(** [os.path.exists(path)]: never raises. *)
Definition os_path_exists (path : string) : M bool :=
  emit (CallExists path) ;;;
  fun w => (Ok (bool_decide (is_Some (fs w !! path))), w).

(** [os.remove(path)] *)
Definition os_remove (path : string) : M unit :=
  emit (CallRemove path) ;;;
  fun w =>
    match remove_error env path (fs w) with
    | Some msg => (Raise (OSError msg), w)
    | None =>
        match fs w !! path with
        | None =>
            (Raise (OSError ("[Errno 2] No such file or directory: '" +:+ path +:+ "'")),
             w)
        | Some _ => (Ok tt, mkWorld (delete path (fs w)) (store w) (trace w))
        end
    end.

(** ** [download_file_from_uri] (main.py, lines 311-329) *)

(** The staging path: [os.path.join(tempfile.gettempdir(), f"llmware_{filename}")]. *)
Definition local_path_of (fname : string) : string :=
  os_path_join (gettempdir env) ("llmware_" +:+ fname).

Definition download_file_from_uri (uri fname : string) : M string :=
  let temp_dir := gettempdir env in
  let local_path := os_path_join temp_dir ("llmware_" +:+ fname) in
  response <- AsyncClient_get 300 uri true ;;
  raise_for_status uri response ;;;
  open_wb local_path ;;;
  file_write local_path (content response) ;;;
  ret local_path.

(** ** [add_file_to_library] (main.py, lines 248-308) *)

(** Lines 262-267: [try: load_library  except: create_new_library].  The
    [except] clause is bare, so it matches every exception. *)
Definition load_or_create (request : AddFileRequest) : M Library :=
  try_except
    (library <- Library_load_library (library_name request) ;;
     logger_info [Lit "Loaded existing library: "; Val (PStr (library_name request))] ;;;
     ret library)
    (fun _ => true)
    (fun _ =>
       logger_info [Lit "Creating new library: "; Val (PStr (library_name request))] ;;;
       Library_create_new_library (library_name request)).

(** Lines 257-270: the log lines, library resolution, and the log line
    announcing the download. *)
Definition resolve_stage (request : AddFileRequest) : M Library :=
  logger_info [Lit "Adding file to library: "; Val (PStr (library_name request))] ;;;
  logger_info [Lit "Blob URI: "; Val (PStr (blob_uri request))] ;;;
  logger_info [Lit "File: "; Val (PStr (filename request))] ;;;
  library <- load_or_create request ;;
  logger_info [Lit "Downloading file from: "; Val (PStr (blob_uri request))] ;;;
  ret library.

(** Lines 276-287: the parser is run on the staged path and the response
    model is built from [parsing_output or {}]. *)
Definition parse_stage (request : AddFileRequest) (library : Library)
    (temp_file_path : string) : M AddFileResponse :=
  logger_info [Lit "Processing file with LLMware: "; Val (PStr temp_file_path)] ;;;
  parsing_output <- library_add_file library temp_file_path ;;
  logger_info [Lit "File parsing complete: "; Val parsing_output] ;;;
  fun w =>
    (AddFileResponse_init (validation_error_str env)
       (filename request) (library_name request)
       (py_or parsing_output (PDict []))
       "File added successfully to library", w).

(** Lines 257-287, the suite of the outer [try].  Next to the result it gives
    the value the local variable [temp_file_path] has when control leaves the
    suite: it is assigned only once [download_file_from_uri] has returned. *)
Definition try_suite (request : AddFileRequest) (w : World)
  : Result AddFileResponse * option string * World :=
  let temp_file_path : option string := None in
  match resolve_stage request w with
  | (Raise e, w1) => (Raise e, temp_file_path, w1)
  | (Ok library, w1) =>
      match download_file_from_uri (blob_uri request) (filename request) w1 with
      | (Raise e, w2) => (Raise e, temp_file_path, w2)
      | (Ok p, w2) =>
          let temp_file_path := Some p in
          let '(r, w3) := parse_stage request library p w2 in
          (r, temp_file_path, w3)
      end
  end.

(** Lines 289-300, the two [except] clauses, tried in order:
    [httpx.HTTPError] gives 400, any other [Exception] gives 500, and what is
    not an [Exception] is not caught. *)
Definition except_clauses (request : AddFileRequest) (r : Result AddFileResponse)
    (w : World) : Outcome * World :=
  match r with
  | Ok response => (Returned response, w)
  | Raise e =>
      if is_HTTPError e then
        (HTTPException HTTP_400_BAD_REQUEST
           ("Failed to download file from blob storage: " +:+ exn_str e),
         record (Log ERROR [Lit "Failed to download file from ";
                            Val (PStr (blob_uri request)); Lit ": ";
                            Val (PStr (exn_str e))]) w)
      else if is_Exception e then
        (HTTPException HTTP_500_INTERNAL_SERVER_ERROR
           ("Failed to add file to library: " +:+ exn_str e),
         record (Log ERROR [Lit "Error adding file to library: ";
                            Val (PStr (exn_str e))]) w)
      else (Propagated e, w)
  end.

(** Lines 301-308, the [finally] suite:
    [if temp_file_path and os.path.exists(temp_file_path)], then remove the
    file, and only log when that fails. *)
Definition finally_suite (temp_file_path : option string) : M unit :=
  match temp_file_path with
  | None => ret tt
  | Some p =>
      if String.eqb p "" then ret tt
      else
        there <- os_path_exists p ;;
        if (there : bool) then
          try_except
            (os_remove p ;;;
             logger_info [Lit "Cleaned up temporary file: "; Val (PStr p)])
            is_Exception
            (fun e => logger_warning [Lit "Failed to cleanup temp file: ";
                                      Val (PStr (exn_str e))])
        else ret tt
  end.

(** The [try] statement up to, and not including, its [finally] suite: the
    pending outcome, the local [temp_file_path], and the world. *)
Definition try_except_part (request : AddFileRequest) (w : World)
  : Outcome * option string * World :=
  let '(r, temp_file_path, w1) := try_suite request w in
  let '(o, w2) := except_clauses request r w1 in
  (o, temp_file_path, w2).

(** The whole endpoint.  An exception escaping the [finally] suite would
    replace the pending outcome. *)
Definition add_file_to_library (request : AddFileRequest) (w : World)
  : Outcome * World :=
  let '(o, temp_file_path, w2) := try_except_part request w in
  match finally_suite temp_file_path w2 with
  | (Ok _, w3) => (o, w3)
  | (Raise e, w3) => (Propagated e, w3)
  end.

End Pipeline.

Arguments World : clear implicits.
Arguments Env : clear implicits.

(** The same environment with another answer for [os.remove]. *)
Definition with_remove_error {Store Library} (env : Env Store Library)
    (f : string -> FS -> option string) : Env Store Library :=
  mkEnv (gettempdir env) (load_library env) (create_new_library env)
        (add_file env) (client_get env) (status_error_str env)
        (validation_error_str env) (open_error env) (write_error env) f.

(** The three log lines that open the [try] suite. *)
Definition opening_logs (request : AddFileRequest) : list Event :=
  [Log INFO [Lit "Adding file to library: "; Val (PStr (library_name request))];
   Log INFO [Lit "Blob URI: "; Val (PStr (blob_uri request))];
   Log INFO [Lit "File: "; Val (PStr (filename request))]].

(** The directory part that [os.path.join] puts in front of the file name. *)
Definition staging_prefix {Store Library} (env : Env Store Library) : string :=
  if (String.eqb (gettempdir env) "" || endswith_sep (gettempdir env))%bool
  then gettempdir env
  else gettempdir env +:+ sep.

(** ** Where a path points

    [os.path.join] does not interpret its pieces.  To say where the staged
    file lands, a path is split at the separators and [.] and [..] are
    resolved, as the operating system does when the directories on the way
    exist. *)

Fixpoint split_sep (s : string) : list string :=
  match s with
  | EmptyString => [EmptyString]
  | String c rest =>
      if Ascii.eqb c "/"%char then EmptyString :: split_sep rest
      else match split_sep rest with
           | [] => [String c EmptyString]
           | x :: xs => String c x :: xs
           end
  end.

(** One component, against the stack of directories entered so far (innermost
    first). *)
Definition resolve_step (stack : list string) (comp : string) : list string :=
  if (String.eqb comp "" || String.eqb comp ".")%bool then stack
  else if String.eqb comp ".." then tail stack
  else comp :: stack.

Definition resolve (path : string) : list string :=
  rev (fold_left resolve_step (split_sep path) []).

Fixpoint starts_with (pre l : list string) : bool :=
  match pre, l with
  | [], _ => true
  | _ :: _, [] => false
  | a :: pre', b :: l' => String.eqb a b && starts_with pre' l'
  end.

(** [path] names something below the directory [dir]. *)
Definition inside_dir (dir path : string) : bool :=
  starts_with (resolve dir) (resolve path)
  && (length (resolve dir) <? length (resolve path))%nat.

(** ** A concrete environment

    A library store that keeps the list of library names, a network with one
    good blob, one missing blob and nothing else, a parser that reports one
    added document, and an operating system that refuses nothing. *)
Module Demo.

Definition LibraryNotFound (name : string) : exn :=
  Exn ExceptionC ("library not found: " +:+ name).

Definition has_library (name : string) (s : list string) : bool :=
  existsb (String.eqb name) s.

Definition load (name : string) (s : list string) : Result string * list string :=
  if has_library name s then (Ok name, s) else (Raise (LibraryNotFound name), s).

Definition create (name : string) (s : list string) : Result string * list string :=
  (Ok name, name :: s).

Definition parse (library path : string) (st : FS * list string)
  : Result pyval * (FS * list string) :=
  match fst st !! path with
  | Some _ => (Ok (PDict [("docs_added", PInt 1)]), st)
  | None => (Raise (Exn ExceptionC "no such file"), st)
  end.

Definition pdf : list Byte.byte := [Byte.x25; Byte.x50; Byte.x44; Byte.x46].

Definition get (uri : string) : Result Response :=
  if String.eqb uri "https://example/a.pdf" then Ok (mkResponse 200 pdf)
  else if String.eqb uri "https://example/b.pdf" then Ok (mkResponse 200 pdf)
  else if String.eqb uri "https://example/missing.pdf" then Ok (mkResponse 404 [])
  else Raise (Exn HTTPErrorC "connection refused").

Definition env : Env (list string) string :=
  mkEnv "/tmp" load create parse get
        (fun _ _ => "error status for url") (fun _ => "not a dict")
        (fun _ _ => None) (fun _ _ _ => None) (fun _ _ => None).

(** The same, on a system where the staged file cannot be removed. *)
Definition env_no_remove : Env (list string) string :=
  with_remove_error env (fun _ _ => Some "Permission denied").

(** The same, with a parser that fails with an [httpx.HTTPError]. *)
Definition env_parser_http_error : Env (list string) string :=
  mkEnv "/tmp" load create
        (fun _ _ st => (Raise (Exn HTTPErrorC "parser could not reach its backend"), st))
        get (fun _ _ => "error status for url") (fun _ => "not a dict")
        (fun _ _ => None) (fun _ _ _ => None) (fun _ _ => None).

(** The same, with a store whose [load_library] is out of order. *)
Definition env_store_down : Env (list string) string :=
  mkEnv "/tmp" (fun _ s => (Raise (Exn BaseExceptionC "store unavailable"), s))
        create parse get
        (fun _ _ => "error status for url") (fun _ => "not a dict")
        (fun _ _ => None) (fun _ _ _ => None) (fun _ _ => None).

(** The same, on a system whose disk is full: the file can be opened, the
    body cannot be written. *)
Definition env_disk_full : Env (list string) string :=
  mkEnv "/tmp" load create parse get
        (fun _ _ => "error status for url") (fun _ => "not a dict")
        (fun _ _ => None) (fun _ _ _ => Some "No space left on device")
        (fun _ _ => None).

Definition w0 : World (list string) := mkWorld ∅ [] [].

Definition request_a : AddFileRequest :=
  mkAddFileRequest "a.pdf" "lib1" "https://example/a.pdf".
Definition request_a' : AddFileRequest :=
  mkAddFileRequest "a.pdf" "lib1" "https://example/b.pdf".
Definition request_missing : AddFileRequest :=
  mkAddFileRequest "a.pdf" "lib1" "https://example/missing.pdf".
Definition request_traversal : AddFileRequest :=
  mkAddFileRequest "x/../../etc/cron.d/job" "lib1" "https://example/a.pdf".

End Demo.

(** ** Further scenarios

    File names without a separator, the external calls in a trace, and
    environments for the failure paths the endpoint has besides the ones
    above. *)

Fixpoint no_sep (s : string) : bool :=
  match s with
  | EmptyString => true
  | String c rest => negb (Ascii.eqb c "/"%char) && no_sep rest
  end.

(** The records of a trace that are calls of a collaborator, not log lines. *)
Definition is_call (ev : Event) : bool :=
  match ev with Log _ _ => false | _ => true end.

Definition is_error_log (ev : Event) : bool :=
  match ev with Log ERROR _ => true | _ => false end.

(** A filesystem call, or a call of the parser, made with a path other than
    [p]. *)
Definition file_call_elsewhere (p : string) (ev : Event) : bool :=
  match ev with
  | CallOpenWb x | CallWrite x _ | CallAddFile x | CallExists x | CallRemove x =>
      negb (String.eqb x p)
  | _ => false
  end.

Definition is_cleanup_call (ev : Event) : bool :=
  match ev with CallExists _ | CallRemove _ => true | _ => false end.

(** What the two [except] clauses of [add_file_to_library] make of an
    exception. *)
Definition classified (e : exn) : Outcome :=
  if is_HTTPError e then
    HTTPException 400 ("Failed to download file from blob storage: " +:+ exn_str e)
  else if is_Exception e then
    HTTPException 500 ("Failed to add file to library: " +:+ exn_str e)
  else Propagated e.

Module Scenarios.

(** A store that can neither load nor create. *)
Definition env_store_read_only : Env (list string) string :=
  mkEnv "/tmp"
        (fun n s => (Raise (Demo.LibraryNotFound n), s))
        (fun _ s => (Raise (Exn ExceptionC "store is read-only"), s))
        Demo.parse Demo.get
        (fun _ _ => "error status for url") (fun _ => "not a dict")
        (fun _ _ => None) (fun _ _ _ => None) (fun _ _ => None).

(** A temporary directory the process may not write to. *)
Definition env_open_refused : Env (list string) string :=
  mkEnv "/tmp" Demo.load Demo.create Demo.parse Demo.get
        (fun _ _ => "error status for url") (fun _ => "not a dict")
        (fun _ _ => Some "Permission denied") (fun _ _ _ => None) (fun _ _ => None).

(** A parser that answers with a text instead of a mapping. *)
Definition env_parser_returns_text : Env (list string) string :=
  mkEnv "/tmp" Demo.load Demo.create
        (fun _ _ st => (Ok (PStr "done"), st)) Demo.get
        (fun _ _ => "error status for url") (fun _ => "not a dict")
        (fun _ _ => None) (fun _ _ _ => None) (fun _ _ => None).

(** A parser that answers [None]. *)
Definition env_parser_returns_none : Env (list string) string :=
  mkEnv "/tmp" Demo.load Demo.create
        (fun _ _ st => (Ok PNone, st)) Demo.get
        (fun _ _ => "error status for url") (fun _ => "not a dict")
        (fun _ _ => None) (fun _ _ _ => None) (fun _ _ => None).

(** A world where the library is there and a file already sits at the
    staging path of ["a.pdf"]. *)
Definition w_occupied : World (list string) :=
  mkWorld {[ "/tmp/llmware_a.pdf" := [Byte.x00] ]} ["lib1"] [].

Definition w_with_library : World (list string) := mkWorld ∅ ["lib1"] [].

End Scenarios.

(** ** The library and embedding endpoints of [main.py]

    [create_library], [get_all_libraries], [get_library], [delete_library],
    [install_vector_embeddings] and [create_embeddings] (lines 100-117,
    162-244 and 331-366).  They talk to the library store only, so their
    world is the store and a trace; what llmware, the process environment
    and pydantic answer comes from a record of oracles, as before. *)

Record EmbeddingStatusItem : Type := mkEmbeddingStatusItem {
  item_embedding_status : string;
  item_embedded_blocks : Z;
  item_embedding_model : string;
  item_embedding_db : string;
  item_time_stamp : string
}.

(** The defaults of the model (lines 33-38). *)
Definition default_item : EmbeddingStatusItem :=
  mkEmbeddingStatusItem "no embeddings" 0 "NA" "NA" "NA".

Record LibraryResponse : Type := mkLibraryResponse {
  lib_name : string;
  lib_embedding_status : list EmbeddingStatusItem;
  lib_file_count : option Z;
  lib_created_at : option string
}.

Record LibraryListResponse : Type := mkLibraryListResponse {
  libraries : list string
}.

Record DeleteLibraryResponse : Type := mkDeleteLibraryResponse {
  deleted_library_name : string;
  deleted_message : string
}.

Record EmbeddingRequest : Type := mkEmbeddingRequest {
  emb_library_name : string;
  emb_embedding_model : string
}.

(** The value [create_embeddings] returns (a plain dictionary in the code). *)
Record EmbeddingsResult : Type := mkEmbeddingsResult {
  res_library_name : string;
  res_embedding_model : string;
  res_embedding_status : option (list pyval);
  res_message : string
}.

(** What an endpoint hands to the framework: a body with its status code, an
    [HTTPException], or an exception it did not catch. *)
Inductive Answer (A : Type) : Type :=
| Responded (status : Z) (body : A)
| Failed (status : Z) (detail : string)
| Escaped (e : exn).
Arguments Responded {A} status body.
Arguments Failed {A} status detail.
Arguments Escaped {A} e.

Inductive ApiEvent : Type :=
| ApiLog (level : Level) (exc_info : bool) (msg : list fpart)
| ApiCreateNewLibrary (name : string)
| ApiLoadLibrary (name : string)
| ApiGetEmbeddingStatus
| ApiGetAllLibraryCards
| ApiDeleteLibrary (name : string) (confirm_delete : bool)
| ApiEnvironGet (key : string)
| ApiGetVectorDb
| ApiInstallNewEmbedding (embedding_model_name vector_db : string)
    (batch_size : Z) (model_api_key : string)
| ApiStatusGetEmbeddingStatus (library_name embedding_model_name : string).

Definition is_api_call (ev : ApiEvent) : bool :=
  match ev with ApiLog _ _ _ => false | _ => true end.

Definition is_api_error_log (ev : ApiEvent) : bool :=
  match ev with ApiLog ERROR _ _ => true | _ => false end.

(** [d.get(k)] on a dictionary given as an association list: [None] when the
    key is missing. *)
Fixpoint dict_lookup (d : list (string * pyval)) (k : string) : option pyval :=
  match d with
  | [] => None
  | (k', v) :: rest => if String.eqb k' k then Some v else dict_lookup rest k
  end.

Definition dict_get (d : list (string * pyval)) (k : string) : pyval :=
  match dict_lookup d k with Some v => v | None => PNone end.

Section Api.

Context {Store Library : Type}.

Record ApiWorld : Type := mkApiWorld {
  api_store : Store;
  api_trace : list ApiEvent
}.

(** The oracles:
    - the llmware calls on the store and on a library object;
    - [library_name_of] is the attribute [library.library_name];
    - [get_vector_db] is [LLMWareConfig().get_vector_db()];
    - [environ_get] is [os.environ.get];
    - [now_isoformat] is [datetime.now(timezone.utc).isoformat()];
    - [accept_str] and [accept_int] say which values pydantic takes for a
      field of type [str] and [int], and as what;
    - the [_str] ones give the texts of the exceptions Python and pydantic
      raise;
    - [http_exception_of] says whether an exception is a fastapi
      [HTTPException], and then gives its status code and detail. *)
Record Backend : Type := mkBackend {
  lw_load_library : string -> Store -> Result Library * Store;
  lw_create_new_library : string -> Store -> Result Library * Store;
  lw_get_embedding_status : Library -> Store -> Result (option (list pyval)) * Store;
  lw_get_all_library_cards : Store -> Result (list pyval) * Store;
  lw_delete_library : Library -> string -> bool -> Store -> Result unit * Store;
  lw_install_new_embedding :
    Library -> string -> string -> Z -> string -> Store -> Result unit * Store;
  lw_status_get_embedding_status : string -> string -> Store -> Result pyval * Store;
  library_name_of : Library -> string;
  get_vector_db : Store -> Result string;
  environ_get : string -> option string;
  now_isoformat : string;
  accept_str : pyval -> option string;
  accept_int : pyval -> option Z;
  item_error_str : pyval -> string;
  names_error_str : list pyval -> string;
  type_error_str : pyval -> string;
  attribute_error_str : pyval -> string;
  http_exception_of : exn -> option (Z * string)
}.

Definition AM (T : Type) : Type := ApiWorld -> Result T * ApiWorld.

Definition aret {T} (a : T) : AM T := fun w => (Ok a, w).

Definition abind {T U} (m : AM T) (k : T -> AM U) : AM U :=
  fun w =>
    match m w with
    | (Ok a, w') => k a w'
    | (Raise e, w') => (Raise e, w')
    end.

Notation "x <- m ;; k" := (abind m (fun x => k))
  (at level 100, m at next level, right associativity).
Notation "m ;;; k" := (abind m (fun _ => k))
  (at level 100, right associativity).

Definition api_record (ev : ApiEvent) (w : ApiWorld) : ApiWorld :=
  mkApiWorld (api_store w) (api_trace w ++ [ev]).

Definition api_emit (ev : ApiEvent) : AM unit := fun w => (Ok tt, api_record ev w).

Definition api_info (msg : list fpart) : AM unit := api_emit (ApiLog INFO false msg).

(** A pure computation that may raise. *)
Definition lift {T} (r : Result T) : AM T := fun w => (r, w).

(** A call of the store: the call is recorded, the store moves on. *)
Definition call {T} (ev : ApiEvent) (f : Store -> Result T * Store) : AM T :=
  api_emit ev ;;;
  fun w => let '(r, s') := f (api_store w) in (r, mkApiWorld s' (api_trace w)).

(** [try: body  except Exception as e: logger.error(...); raise
    HTTPException(status_code=fail, detail=prefix + str(e))], for an endpoint
    that answers [ok] when the body returns. *)
Definition guarded {T} (ok : Z) (body : AM T)
    (log_msg : exn -> list fpart) (exc_info : bool)
    (fail : Z) (detail_prefix : string) : ApiWorld -> Answer T * ApiWorld :=
  fun w =>
    match body w with
    | (Ok a, w') => (Responded ok a, w')
    | (Raise e, w') =>
        if is_Exception e then
          (Failed fail (detail_prefix +:+ exn_str e),
           api_record (ApiLog ERROR exc_info (log_msg e)) w')
        else (Escaped e, w')
    end.

Variable backend : Backend.

(** A field of a pydantic model, taken from the keyword arguments: the
    default when the key is missing, else what the validator makes of the
    value. *)
Definition field {T} (accept : pyval -> option T) (d : list (string * pyval))
    (k : string) (default : T) : option T :=
  match dict_lookup d k with
  | None => Some default
  | Some v => accept v
  end.

(** [EmbeddingStatusItem( **item )]: unknown keys are ignored. *)
Definition EmbeddingStatusItem_init (item : pyval) : Result EmbeddingStatusItem :=
  match item with
  | PDict d =>
      match field (accept_str backend) d "embedding_status" "no embeddings",
            field (accept_int backend) d "embedded_blocks" 0,
            field (accept_str backend) d "embedding_model" "NA",
            field (accept_str backend) d "embedding_db" "NA",
            field (accept_str backend) d "time_stamp" "NA" with
      | Some a, Some b, Some c, Some d', Some e =>
          Ok (mkEmbeddingStatusItem a b c d' e)
      | _, _, _, _, _ => Raise (ValidationError (item_error_str backend item))
      end
  | _ => Raise (Exn ExceptionC (type_error_str backend item))
  end.

(** [[EmbeddingStatusItem( **item ) for item in raw]]: the first item that
    fails ends the comprehension. *)
Fixpoint status_items (raw : list pyval) : Result (list EmbeddingStatusItem) :=
  match raw with
  | [] => Ok []
  | item :: rest =>
      match EmbeddingStatusItem_init item with
      | Raise e => Raise e
      | Ok i =>
          match status_items rest with
          | Raise e => Raise e
          | Ok items => Ok (i :: items)
          end
      end
  end.

(** [raw or []] *)
Definition or_empty (raw : option (list pyval)) : list pyval :=
  match raw with Some l => l | None => [] end.

(** Lines 162-187. *)
Definition create_library (library_data_name : string)
  : ApiWorld -> Answer LibraryResponse * ApiWorld :=
  guarded 201
    (library <- call (ApiCreateNewLibrary library_data_name)
                  (lw_create_new_library backend library_data_name) ;;
     raw <- call ApiGetEmbeddingStatus (lw_get_embedding_status backend library) ;;
     embedding_status <- lift (status_items (or_empty raw)) ;;
     aret (mkLibraryResponse library_data_name embedding_status (Some 0)
             (Some (now_isoformat backend))))
    (fun e => [Lit "Error creating library: "; Val (PStr (exn_str e))]) true
    HTTP_500_INTERNAL_SERVER_ERROR "Failed to create library: ".

(** [lib.get("library_name")] on a card. *)
Definition card_get (lib : pyval) (k : string) : Result pyval :=
  match lib with
  | PDict d => Ok (dict_get d k)
  | _ => Raise (Exn ExceptionC (attribute_error_str backend lib))
  end.

(** [[lib.get("library_name") for lib in all_libraries
      if lib.get("library_name")]] *)
Fixpoint library_names_of (all_libraries : list pyval) : Result (list pyval) :=
  match all_libraries with
  | [] => Ok []
  | lib :: rest =>
      match card_get lib "library_name" with
      | Raise e => Raise e
      | Ok v =>
          match library_names_of rest with
          | Raise e => Raise e
          | Ok names => Ok (if truthy v then v :: names else names)
          end
      end
  end.

Fixpoint accept_all (vs : list pyval) : option (list string) :=
  match vs with
  | [] => Some []
  | v :: rest =>
      match accept_str backend v, accept_all rest with
      | Some s, Some ss => Some (s :: ss)
      | _, _ => None
      end
  end.

(** [LibraryListResponse(libraries=names)], with [libraries: List[str]]. *)
Definition LibraryListResponse_init (names : list pyval) : Result LibraryListResponse :=
  match accept_all names with
  | Some ss => Ok (mkLibraryListResponse ss)
  | None => Raise (ValidationError (names_error_str backend names))
  end.

(** Lines 189-203. *)
Definition get_all_libraries : ApiWorld -> Answer LibraryListResponse * ApiWorld :=
  guarded 200
    (all_libraries <- call ApiGetAllLibraryCards (lw_get_all_library_cards backend) ;;
     library_names <- lift (library_names_of all_libraries) ;;
     lift (LibraryListResponse_init library_names))
    (fun e => [Lit "Error fetching libraries: "; Val (PStr (exn_str e))]) false
    HTTP_500_INTERNAL_SERVER_ERROR "Failed to fetch libraries: ".


(** Lines 227-244. *)
Definition delete_library (library_name : string)
  : ApiWorld -> Answer DeleteLibraryResponse * ApiWorld :=
  guarded 200
    (api_info [Lit "Deleting library: "; Val (PStr library_name)] ;;;
     library <- call (ApiLoadLibrary library_name)
                  (lw_load_library backend library_name) ;;
     call (ApiDeleteLibrary library_name true)
       (lw_delete_library backend library library_name true) ;;;
     aret (mkDeleteLibraryResponse library_name
             ("Library '" +:+ library_name +:+ "' deleted successfully")))
    (fun e => [Lit "Error deleting library "; Val (PStr library_name); Lit ": ";
               Val (PStr (exn_str e))]) false
    HTTP_500_INTERNAL_SERVER_ERROR "Failed to delete library: ".

(** Lines 100-117. *)
Definition install_vector_embeddings (library : Library)
    (embedding_model_name api_key : string) : AM (option (list pyval)) :=
  let library_name := library_name_of backend library in
  vector_db <- (api_emit ApiGetVectorDb ;;;
                fun w => (get_vector_db backend (api_store w), w)) ;;
  api_info [Lit "Starting embedding: library="; Val (PStr library_name);
            Lit ", vector_db="; Val (PStr vector_db);
            Lit ", model="; Val (PStr embedding_model_name)] ;;;
  call (ApiInstallNewEmbedding embedding_model_name vector_db 100 api_key)
    (lw_install_new_embedding backend library embedding_model_name vector_db 100
       api_key) ;;;
  update <- call (ApiStatusGetEmbeddingStatus library_name embedding_model_name)
              (lw_status_get_embedding_status backend library_name
                 embedding_model_name) ;;
  api_info [Lit "Embeddings complete: "; Val update] ;;;
  call ApiGetEmbeddingStatus (lw_get_embedding_status backend library).

(** What the two [except] clauses of [create_embeddings] make of an exception
    raised anywhere in the [try] body: an [HTTPException] is raised again as
    it is ([except HTTPException: raise]), any other [Exception] is logged
    and answered 500. *)
Definition embeddings_failure (e : exn) (w : ApiWorld)
  : Answer EmbeddingsResult * ApiWorld :=
  match http_exception_of backend e with
  | Some (status, detail) => (Failed status detail, w)
  | None =>
      if is_Exception e then
        (Failed HTTP_500_INTERNAL_SERVER_ERROR
           ("Failed to create embeddings: " +:+ exn_str e),
         api_record (ApiLog ERROR false
                       [Lit "Error creating embeddings: "; Val (PStr (exn_str e))]) w)
      else (Escaped e, w)
  end.

(** [not api_key] on the answer of [os.environ.get]. *)
Definition key_missing (api_key : option string) : bool :=
  match api_key with
  | None => true
  | Some k => String.eqb k ""
  end.

(** Lines 331-366.  The [HTTPException] raised for a missing key is caught by
    the clause [except HTTPException: raise] and leaves as it is. *)
Definition create_embeddings (request : EmbeddingRequest)
  : ApiWorld -> Answer EmbeddingsResult * ApiWorld :=
  fun w =>
    match
      (api_info [Lit "Creating embeddings for library: ";
                 Val (PStr (emb_library_name request))] ;;;
       call (ApiLoadLibrary (emb_library_name request))
         (lw_load_library backend (emb_library_name request))) w
    with
    | (Raise e, w1) => embeddings_failure e w1
    | (Ok library, w1) =>
        let w2 := api_record (ApiEnvironGet "OPENAI_API_KEY") w1 in
        let api_key := environ_get backend "OPENAI_API_KEY" in
        if key_missing api_key then
          (Failed HTTP_400_BAD_REQUEST "OPENAI_API_KEY not configured", w2)
        else
          match install_vector_embeddings library (emb_embedding_model request)
                  (default "" api_key) w2 with
          | (Raise e, w3) => embeddings_failure e w3
          | (Ok embedding_status, w3) =>
              (Responded 200
                 (mkEmbeddingsResult (emb_library_name request)
                    (emb_embedding_model request) embedding_status
                    "Embeddings created successfully"), w3)
          end
    end.

End Api.

Arguments ApiWorld : clear implicits.
Arguments Backend : clear implicits.

Definition is_api_load (ev : ApiEvent) : bool :=
  match ev with ApiLoadLibrary _ => true | _ => false end.

(** The names [get_all_libraries] reports for cards that are dictionaries:
    the non-empty strings found under ["library_name"], in the order of the
    cards. *)
Definition card_names (cards : list (list (string * pyval))) : list string :=
  flat_map (fun d => match dict_get d "library_name" with
                     | PStr s => if String.eqb s "" then [] else [s]
                     | _ => []
                     end) cards.

(** A dictionary with none of the keys of an [EmbeddingStatusItem]. *)
Definition lacks_item_keys (d : list (string * pyval)) : Prop :=
  dict_lookup d "embedding_status" = None /\
  dict_lookup d "embedded_blocks" = None /\
  dict_lookup d "embedding_model" = None /\
  dict_lookup d "embedding_db" = None /\
  dict_lookup d "time_stamp" = None.

(** A concrete backend: the store is the list of library names, no embedding
    has been installed, and pydantic takes strings for [str] fields and
    integers for [int] fields. *)
Module ApiDemo.

Definition delete (library name : string) (confirm : bool) (s : list string)
  : Result unit * list string :=
  (Ok tt, List.filter (fun n => negb (String.eqb n name)) s).

Definition cards (s : list string) : Result (list pyval) * list string :=
  (Ok (map (fun n => PDict [("library_name", PStr n)]) s), s).

Definition take_str (v : pyval) : option string :=
  match v with PStr s => Some s | _ => None end.

Definition take_int (v : pyval) : option Z :=
  match v with PInt z => Some z | _ => None end.

Definition backend_with (key : option string) : Backend (list string) string :=
  mkBackend Demo.load Demo.create
    (fun _ s => (Ok None, s)) cards delete
    (fun _ _ _ _ _ s => (Ok tt, s))
    (fun _ _ s => (Ok (PDict [("status", PStr "complete")]), s))
    (fun library => library)
    (fun _ => Ok "chromadb")
    (fun k => if String.eqb k "OPENAI_API_KEY" then key else None)
    "2025-01-01T00:00:00+00:00"
    take_str take_int
    (fun _ => "invalid item") (fun _ => "invalid names")
    (fun _ => "argument after ** must be a mapping")
    (fun _ => "object has no attribute 'get'")
    (fun _ => None).

Definition backend : Backend (list string) string := backend_with None.

(** The same, with a key in the environment. *)
Definition backend_with_key : Backend (list string) string :=
  backend_with (Some "sk-test").


(** The same, with a store front that refuses the load with an
    [HTTPException] of its own. *)
Definition Forbidden : exn := Exn ExceptionC "403: library is private".

Definition backend_forbidden : Backend (list string) string :=
  mkBackend (fun _ s => (Raise Forbidden, s)) Demo.create
    (fun _ s => (Ok None, s)) cards delete
    (fun _ _ _ _ _ s => (Ok tt, s))
    (fun _ _ s => (Ok (PDict []), s))
    (fun library => library)
    (fun _ => Ok "chromadb")
    (fun _ => None)
    "2025-01-01T00:00:00+00:00"
    take_str take_int
    (fun _ => "invalid item") (fun _ => "invalid names")
    (fun _ => "argument after ** must be a mapping")
    (fun _ => "object has no attribute 'get'")
    (fun e => if String.eqb (exn_str e) "403: library is private"
              then Some (403, "library is private") else None).

Definition w0 : ApiWorld (list string) := mkApiWorld [] [].
Definition w1 : ApiWorld (list string) := mkApiWorld ["lib1"; "lib2"] [].

End ApiDemo.

(** ** Start-up: the tokenizer check and [lifespan]

    [ensure_gpt2_tokenizer_exists] (main.py, lines 78-98; test2.py, lines
    21-49, a variant that prints and does not re-raise) and the start-up half
    of [lifespan] (main.py, lines 121-139).  The state is the machine -- disk
    and llmware configuration -- which only the oracles look into. *)

Inductive BootEvent : Type :=
| BootLog (level : Level) (msg : list fpart)
| BootPrint (msg : list fpart)
| BootSetActiveDb (db : string)
| BootSetVectorDb (db : string)
| BootGetConfig (key : string)
| BootLoadDotenv
| BootExists (path : string)
| BootMakedirs (path : string) (exist_ok : bool)
| BootPull (model_name : string).


Section Boot.

Context {Machine : Type}.

Record BootWorld : Type := mkBootWorld {
  machine : Machine;
  boot_trace : list BootEvent
}.

(** The oracles: [LLMWareConfig().get_model_repo_path()], [os.path.exists],
    [os.makedirs(path, exist_ok=True)], the download of a model from the
    llmware repository, the two configuration setters,
    [ChromaDBConfig().get_config] and [load_dotenv]. *)
Record Host : Type := mkHost {
  get_model_repo_path : string;
  path_exists : string -> Machine -> bool;
  makedirs : string -> Machine -> Result unit * Machine;
  pull_single_model : string -> Machine -> Result unit * Machine;
  set_active_db : string -> Machine -> Result unit * Machine;
  set_vector_db : string -> Machine -> Result unit * Machine;
  chroma_get_config : string -> Machine -> Result pyval * Machine;
  load_dotenv : Machine -> Result unit * Machine
}.

Definition BM (T : Type) : Type := BootWorld -> Result T * BootWorld.

Definition bret {T} (a : T) : BM T := fun w => (Ok a, w).

Definition bbind {T U} (m : BM T) (k : T -> BM U) : BM U :=
  fun w =>
    match m w with
    | (Ok a, w') => k a w'
    | (Raise e, w') => (Raise e, w')
    end.

Notation "x <- m ;; k" := (bbind m (fun x => k))
  (at level 100, m at next level, right associativity).
Notation "m ;;; k" := (bbind m (fun _ => k))
  (at level 100, right associativity).

Definition boot_record (ev : BootEvent) (w : BootWorld) : BootWorld :=
  mkBootWorld (machine w) (boot_trace w ++ [ev]).

Definition boot_emit (ev : BootEvent) : BM unit := fun w => (Ok tt, boot_record ev w).

Definition boot_info (msg : list fpart) : BM unit := boot_emit (BootLog INFO msg).
Definition boot_print (msg : list fpart) : BM unit := boot_emit (BootPrint msg).

(** A call that changes the machine. *)
Definition boot_call {T} (ev : BootEvent) (f : Machine -> Result T * Machine) : BM T :=
  boot_emit ev ;;;
  fun w => let '(r, m') := f (machine w) in (r, mkBootWorld m' (boot_trace w)).

Variable host : Host.

Definition boot_exists (path : string) : BM bool :=
  boot_emit (BootExists path) ;;;
  fun w => (Ok (path_exists host path (machine w)), w).

Definition gpt2_path : string := os_path_join (get_model_repo_path host) "gpt2".
Definition tokenizer_file : string := os_path_join gpt2_path "tokenizer.json".

(** main.py, lines 78-98. *)
Definition ensure_gpt2_tokenizer_exists : BM unit :=
  let local_model_repo := get_model_repo_path host in
  let gpt2_path := os_path_join local_model_repo "gpt2" in
  let tokenizer_file := os_path_join gpt2_path "tokenizer.json" in
  there <- boot_exists tokenizer_file ;;
  if negb there then
    boot_info [Lit "GPT2 tokenizer missing at: "; Val (PStr tokenizer_file)] ;;;
    boot_info [Lit "Attempting to download..."] ;;;
    boot_call (BootMakedirs local_model_repo true) (makedirs host local_model_repo) ;;;
    boot_call (BootMakedirs gpt2_path true) (makedirs host gpt2_path) ;;;
    fun w =>
      match (boot_call (BootPull "gpt2") (pull_single_model host "gpt2") ;;;
             boot_info [Lit "GPT2 tokenizer downloaded successfully."]) w with
      | (Ok a, w') => (Ok a, w')
      | (Raise e, w') =>
          if is_Exception e then
            (Raise e,
             boot_record (BootLog ERROR [Lit "Error downloading GPT2 assets: ";
                                         Val (PStr (exn_str e))]) w')
          else (Raise e, w')
      end
  else
    boot_info [Lit "GPT2 tokenizer found."].

(** [if not os.path.exists(path): os.makedirs(path, exist_ok=True)] *)
Definition makedirs_if_missing (path : string) : BM unit :=
  there <- boot_exists path ;;
  if negb there then boot_call (BootMakedirs path true) (makedirs host path)
  else bret tt.

(** test2.py, lines 21-49: the same check, run when the script is loaded;
    it prints instead of logging and does not re-raise. *)
Definition ensure_gpt2_tokenizer_exists_script : BM unit :=
  let local_model_repo := get_model_repo_path host in
  let gpt2_path := os_path_join local_model_repo "gpt2" in
  let tokenizer_file := os_path_join gpt2_path "tokenizer.json" in
  there <- boot_exists tokenizer_file ;;
  if negb there then
    boot_print [Lit "GPT2 tokenizer missing at: "; Val (PStr tokenizer_file)] ;;;
    boot_print [Lit "Attempting to download..."] ;;;
    makedirs_if_missing local_model_repo ;;;
    makedirs_if_missing gpt2_path ;;;
    fun w =>
      match (boot_call (BootPull "gpt2") (pull_single_model host "gpt2") ;;;
             boot_print [Lit "GPT2 tokenizer downloaded successfully."]) w with
      | (Ok a, w') => (Ok a, w')
      | (Raise e, w') =>
          if is_Exception e then
            (Ok tt,
             boot_record (BootPrint [Lit "Error downloading GPT2 assets: ";
                                     Val (PStr (exn_str e))]) w')
          else (Raise e, w')
      end
  else
    boot_print [Lit "GPT2 tokenizer found. Proceeding..."].


End Boot.

Arguments BootWorld : clear implicits.
Arguments Host : clear implicits.


(** What [os.path.join] puts in front of a relative name: the directory, and
    a separator unless the directory is empty or ends with one. *)
Definition join_prefix (dir : string) : string :=
  if (String.eqb dir "" || endswith_sep dir)%bool then dir else dir +:+ sep.

(** A machine that is the set of the paths that exist, first with the
    tokenizer in place, then without it and without network. *)
Module BootDemo.

Definition exists_in (path : string) (m : list string) : bool :=
  existsb (String.eqb path) m.

Definition host_offline : Host (list string) :=
  mkHost "/models" exists_in
    (fun path m => (Ok tt, path :: m))
    (fun _ m => (Raise (Exn ExceptionC "network unreachable"), m))
    (fun _ m => (Ok tt, m)) (fun _ m => (Ok tt, m))
    (fun _ m => (Ok (PStr "/data/chroma"), m)) (fun m => (Ok tt, m)).

Definition ready : BootWorld (list string) :=
  mkBootWorld ["/models/gpt2/tokenizer.json"; "/models/gpt2"; "/models"] [].


End BootDemo.

(** ** The text sample of [semantic_search] (test.py, line 88)

    [if len(text) > 125: text = text[0:125] + " ... "]

    A Python string is a sequence of code points: [len] counts them and a
    slice cuts between them.  So a text is a list of code points here. *)

(** [" ... "]: a space, three full stops, a space. *)
Definition ellipsis : list N := [32; 46; 46; 46; 32]%N.

Definition text_sample (text : list N) : list N :=
  if (125 <? List.length text)%nat
  then List.firstn 125 text ++ ellipsis
  else text.

(** * Properties *)

(** ** Strings and paths *)

Lemma append_nil_l (b : string) : "" +:+ b = b.
Proof. reflexivity. Qed.

Lemma append_cons (c : ascii) (a b : string) :
  String c a +:+ b = String c (a +:+ b).
Proof. reflexivity. Qed.

Lemma append_assoc (a b c : string) : (a +:+ b) +:+ c = a +:+ (b +:+ c).
Proof.
  induction a as [|x a IH]; [reflexivity|].
  rewrite !append_cons. now rewrite IH.
Qed.

Lemma append_inj_l (a x y : string) : a +:+ x = a +:+ y -> x = y.
Proof.
  induction a as [|c a IH]; intros H; [exact H|].
  rewrite !append_cons in H. injection H as H. now apply IH.
Qed.

Lemma append_nonempty_r (a : string) (c : ascii) (r : string) :
  String.eqb (a +:+ String c r) "" = false.
Proof. destruct a; reflexivity. Qed.

Ltac unfold_M :=
  unfold logger_info, logger_warning, logger_error in *;
  unfold bind, ret, raise, try_except, emit in *.

Ltac same_trace :=
  unfold record; simpl; rewrite <- ?app_assoc; simpl; try reflexivity.

Section Fetcher.

Context {Store Library : Type}.
Implicit Types (env : Env Store Library) (w : World Store).
Implicit Types (request : AddFileRequest) (e : exn).

(** The caller's file name goes into the staging path as it is. *)
Lemma local_path_of_verbatim env (fname : string) :
  local_path_of env fname = staging_prefix env +:+ "llmware_" +:+ fname.
Proof.
  unfold local_path_of, os_path_join, staging_prefix.
  change (startswith_sep ("llmware_" +:+ fname)) with false. cbv iota.
  destruct (String.eqb (gettempdir env) "" || endswith_sep (gettempdir env))%bool;
    [reflexivity|].
  unfold sep. now rewrite append_assoc.
Qed.

Lemma local_path_of_inj env (f1 f2 : string) :
  local_path_of env f1 = local_path_of env f2 -> f1 = f2.
Proof.
  rewrite !local_path_of_verbatim. intros H.
  apply append_inj_l in H. now apply (append_inj_l "llmware_") in H.
Qed.

Lemma local_path_of_nonempty env (fname : string) :
  String.eqb (local_path_of env fname) "" = false.
Proof.
  rewrite local_path_of_verbatim.
  change ("llmware_" +:+ fname) with (String "l" ("lmware_" +:+ fname)).
  apply append_nonempty_r.
Qed.

(** ** The blob fetcher, case by case *)

Lemma download_cases env (uri fname : string) w :
  let p := local_path_of env fname in
  let w1 := record (CallGet uri true 300) w in
  download_file_from_uri env uri fname w =
  match client_get env uri with
  | Raise e => (Raise e, w1)
  | Ok resp =>
      if is_success resp then
        match open_error env p (fs w) with
        | Some msg => (Raise (OSError msg), record (CallOpenWb p) w1)
        | None =>
            let t := trace w ++ [CallGet uri true 300; CallOpenWb p;
                                 CallWrite p (content resp)] in
            match write_error env p (content resp) (<[p:=[]]> (fs w)) with
            | Some msg =>
                (Raise (OSError msg), mkWorld (<[p:=[]]> (fs w)) (store w) t)
            | None =>
                (Ok p, mkWorld (<[p:=content resp]> (fs w)) (store w) t)
            end
        end
      else (Raise (HTTPStatusError (status_error_str env uri resp)), w1)
  end.
Proof.
  intros p w1. subst p w1.
  unfold download_file_from_uri, AsyncClient_get, raise_for_status, open_wb,
    file_write, local_path_of.
  unfold_M. simpl.
  destruct (client_get env uri) as [resp|e]; [|reflexivity].
  destruct (is_success resp); [|reflexivity]. simpl.
  destruct (open_error env _ (fs w)); [reflexivity|]. simpl.
  destruct (write_error env _ (content resp) _); unfold record; simpl;
    rewrite <- !app_assoc; simpl; [reflexivity|].
  now rewrite insert_insert_eq.
Qed.

Lemma download_returns_local_path env (uri fname : string) w (p : string) w' :
  download_file_from_uri env uri fname w = (Ok p, w') ->
  p = local_path_of env fname.
Proof.
  rewrite download_cases.
  destruct (client_get env uri) as [resp|e]; [|discriminate].
  destruct (is_success resp); [|discriminate].
  destruct (open_error env _ (fs w)); [discriminate|].
  destruct (write_error env _ (content resp) _); [discriminate|].
  now intros [= <- _].
Qed.

(** C9.  The staging file is created only after the response has arrived with
    a success status: when the GET raises, or the status is not a success
    status, [download_file_from_uri] raises, the filesystem is as it was, and
    the only call it made is the GET -- the file was neither opened nor
    written. *)
Theorem failed_fetch_creates_no_file env (uri fname : string) w :
  ((exists e, client_get env uri = Raise e) \/
   (exists resp, client_get env uri = Ok resp /\ is_success resp = false)) ->
  (exists e, fst (download_file_from_uri env uri fname w) = Raise e) /\
  fs (snd (download_file_from_uri env uri fname w)) = fs w /\
  trace (snd (download_file_from_uri env uri fname w)) =
    trace w ++ [CallGet uri true 300] /\
  List.filter is_file_write
    (trace (snd (download_file_from_uri env uri fname w))) =
    List.filter is_file_write (trace w).
Proof.
  intros H. rewrite download_cases. cbv zeta.
  assert (Hf : List.filter is_file_write (trace w ++ [CallGet uri true 300])
               = List.filter is_file_write (trace w)).
  { rewrite List.filter_app. simpl. apply app_nil_r. }
  destruct H as [[e He]|[resp [Hr Hs]]].
  - rewrite He. simpl. eauto.
  - rewrite Hr, Hs. simpl. eauto.
Qed.


(** C6, as the code has it.  The staging path is a function of the temporary
    directory and the caller's file name alone: two calls of the fetcher
    return the same path exactly when they were given the same file name. *)
Theorem staged_paths_equal_iff_same_filename env
    (uri1 f1 uri2 f2 : string) w1 w2 (p1 p2 : string) w1' w2' :
  download_file_from_uri env uri1 f1 w1 = (Ok p1, w1') ->
  download_file_from_uri env uri2 f2 w2 = (Ok p2, w2') ->
  (p1 = p2 <-> f1 = f2).
Proof.
  intros H1 H2.
  apply download_returns_local_path in H1, H2. subst p1 p2.
  split; [apply local_path_of_inj|now intros ->].
Qed.

End Fetcher.


Lemma staged_paths_equal_iff_same_filename_witness :
  download_file_from_uri Demo.env "https://example/a.pdf" "a.pdf" Demo.w0
    = (Ok "/tmp/llmware_a.pdf",
       snd (download_file_from_uri Demo.env "https://example/a.pdf" "a.pdf" Demo.w0)) /\
  download_file_from_uri Demo.env "https://example/b.pdf" "b.pdf" Demo.w0
    = (Ok "/tmp/llmware_b.pdf",
       snd (download_file_from_uri Demo.env "https://example/b.pdf" "b.pdf" Demo.w0)) /\
  ("/tmp/llmware_a.pdf" = "/tmp/llmware_b.pdf" <-> "a.pdf" = "b.pdf").
Proof.
  assert (Ha : download_file_from_uri Demo.env "https://example/a.pdf" "a.pdf" Demo.w0
    = (Ok "/tmp/llmware_a.pdf",
       snd (download_file_from_uri Demo.env "https://example/a.pdf" "a.pdf" Demo.w0)))
    by reflexivity.
  assert (Hb : download_file_from_uri Demo.env "https://example/b.pdf" "b.pdf" Demo.w0
    = (Ok "/tmp/llmware_b.pdf",
       snd (download_file_from_uri Demo.env "https://example/b.pdf" "b.pdf" Demo.w0)))
    by reflexivity.
  split; [exact Ha|]. split; [exact Hb|].
  exact (staged_paths_equal_iff_same_filename Demo.env _ _ _ _ _ _ _ _ _ _ Ha Hb).
Defined.

(** C6, refuted as stated.  Two different ingestion requests that name the
    same file are given the same staging path: the second fetch overwrites
    the file the first one staged. *)
Lemma same_filename_same_staged_path :
  Demo.request_a <> Demo.request_a' /\
  exists p wa wb,
    download_file_from_uri Demo.env (blob_uri Demo.request_a)
      (filename Demo.request_a) Demo.w0 = (Ok p, wa) /\
    download_file_from_uri Demo.env (blob_uri Demo.request_a')
      (filename Demo.request_a') wa = (Ok p, wb).
Proof.
  split; [discriminate|].
  eexists _, _, _. split; reflexivity.
Qed.

(** C5, at a failing input.  The file name ["x/../../etc/cron.d/job"] is
    joined to the temporary directory as it is; the path obtained leaves the
    temporary directory, and the fetcher writes the blob there. *)
Lemma unsanitized_filename_leaves_tempdir :
  local_path_of Demo.env (filename Demo.request_traversal)
    = "/tmp/llmware_x/../../etc/cron.d/job" /\
  resolve (local_path_of Demo.env (filename Demo.request_traversal))
    = ["etc"; "cron.d"; "job"] /\
  inside_dir (gettempdir Demo.env)
    (local_path_of Demo.env (filename Demo.request_traversal)) = false /\
  fst (download_file_from_uri Demo.env (blob_uri Demo.request_traversal)
         (filename Demo.request_traversal) Demo.w0)
    = Ok "/tmp/llmware_x/../../etc/cron.d/job" /\
  fs (snd (download_file_from_uri Demo.env (blob_uri Demo.request_traversal)
             (filename Demo.request_traversal) Demo.w0))
    !! "/tmp/llmware_x/../../etc/cron.d/job" = Some Demo.pdf.
Proof. repeat split; vm_compute; reflexivity. Qed.

(** ** The coordinator, stage by stage *)

Section Coordinator.

Context {Store Library : Type}.
Implicit Types (env : Env Store Library) (w : World Store).
Implicit Types (request : AddFileRequest) (e : exn).

Lemma load_or_create_cases env request w :
  let n := library_name request in
  load_or_create env request w =
  match load_library env n (store w) with
  | (Ok lib, s1) =>
      (Ok lib,
       mkWorld (fs w) s1
         (trace w ++ [CallLoadLibrary n;
                      Log INFO [Lit "Loaded existing library: "; Val (PStr n)]]))
  | (Raise _, s1) =>
      (fst (create_new_library env n s1),
       mkWorld (fs w) (snd (create_new_library env n s1))
         (trace w ++ [CallLoadLibrary n;
                      Log INFO [Lit "Creating new library: "; Val (PStr n)];
                      CallCreateNewLibrary n]))
  end.
Proof.
  intros n. subst n.
  unfold load_or_create, Library_load_library, Library_create_new_library.
  unfold_M. unfold record. simpl.
  destruct (load_library env _ (store w)) as [[lib|e] s1]; simpl.
  - same_trace.
  - destruct (create_new_library env _ s1) as [r s2]; same_trace.
Qed.

Lemma resolve_stage_cases env request w :
  resolve_stage env request w =
  match load_or_create env request
          (mkWorld (fs w) (store w) (trace w ++ opening_logs request)) with
  | (Ok lib, w1) =>
      (Ok lib, record (Log INFO [Lit "Downloading file from: ";
                                 Val (PStr (blob_uri request))]) w1)
  | (Raise e, w1) => (Raise e, w1)
  end.
Proof.
  unfold resolve_stage. unfold_M. cbv beta iota.
  match goal with
  | |- context [load_or_create env request (record ?ev ?x)] =>
      replace (record ev x)
        with (mkWorld (fs w) (store w) (trace w ++ opening_logs request))
        by (unfold opening_logs; same_trace)
  end.
  destruct (load_or_create env request _) as [[lib|e] w1]; reflexivity.
Qed.

Lemma parse_stage_cases env request (lib : Library) (p : string) w :
  parse_stage env request lib p w =
  let processing := Log INFO [Lit "Processing file with LLMware: "; Val (PStr p)] in
  match add_file env lib p (fs w, store w) with
  | (Ok v, (fs', s')) =>
      (AddFileResponse_init (validation_error_str env)
         (filename request) (library_name request)
         (py_or v (PDict [])) "File added successfully to library",
       mkWorld fs' s'
         (trace w ++ [processing; CallAddFile p;
                      Log INFO [Lit "File parsing complete: "; Val v]]))
  | (Raise e, (fs', s')) =>
      (Raise e, mkWorld fs' s' (trace w ++ [processing; CallAddFile p]))
  end.
Proof.
  unfold parse_stage, library_add_file. unfold_M. same_trace.
  destruct (add_file env lib p (fs w, store w)) as [[v|e] [fs' s']]; same_trace.
Qed.

Lemma finally_suite_cases env (temp_file_path : option string) w :
  finally_suite env temp_file_path w =
  match temp_file_path with
  | None => (Ok tt, w)
  | Some p =>
      if String.eqb p "" then (Ok tt, w)
      else
        match fs w !! p with
        | None => (Ok tt, record (CallExists p) w)
        | Some _ =>
            match remove_error env p (fs w) with
            | Some msg =>
                (Ok tt,
                 mkWorld (fs w) (store w)
                   (trace w ++ [CallExists p; CallRemove p;
                                Log WARNING [Lit "Failed to cleanup temp file: ";
                                             Val (PStr msg)]]))
            | None =>
                (Ok tt,
                 mkWorld (delete p (fs w)) (store w)
                   (trace w ++ [CallExists p; CallRemove p;
                                Log INFO [Lit "Cleaned up temporary file: ";
                                          Val (PStr p)]]))
            end
        end
  end.
Proof.
  unfold finally_suite. destruct temp_file_path as [p|]; [|reflexivity].
  destruct (String.eqb p ""); [reflexivity|].
  unfold os_path_exists, os_remove. unfold_M. same_trace.
  destruct (fs w !! p) as [d|] eqn:Hp.
  - rewrite bool_decide_eq_true_2 by eauto. simpl.
    destruct (remove_error env p (fs w)); simpl.
    + same_trace.
    + rewrite Hp. same_trace.
  - rewrite bool_decide_eq_false_2 by (intros [? ?]; discriminate). reflexivity.
Qed.

(** The [finally] suite never raises: every failure of [os.remove] is an
    [OSError], and the inner handler catches it. *)
Lemma finally_suite_returns env (temp_file_path : option string) w :
  fst (finally_suite env temp_file_path w) = Ok tt.
Proof.
  rewrite finally_suite_cases.
  destruct temp_file_path as [p|]; [|reflexivity].
  destruct (String.eqb p ""); [reflexivity|].
  destruct (fs w !! p); [|reflexivity].
  destruct (remove_error env p (fs w)); reflexivity.
Qed.

Lemma add_file_to_library_eq env request w :
  add_file_to_library env request w =
  (fst (fst (try_except_part env request w)),
   snd (finally_suite env (snd (fst (try_except_part env request w)))
          (snd (try_except_part env request w)))).
Proof.
  unfold add_file_to_library.
  destruct (try_except_part env request w) as [[o tp] w2]. simpl.
  pose proof (finally_suite_returns env tp w2) as H.
  destruct (finally_suite env tp w2) as [[[]|e] w3]; simpl in *;
    [reflexivity|discriminate].
Qed.

(** What the stages leave alone. *)

Lemma resolve_stage_fs env request w :
  fs (snd (resolve_stage env request w)) = fs w.
Proof.
  rewrite resolve_stage_cases, load_or_create_cases. cbv zeta. simpl.
  destruct (load_library env _ (store w)) as [[lib|e] s1]; simpl; [reflexivity|].
  destruct (create_new_library env _ s1) as [[lib|e'] s2]; reflexivity.
Qed.

Lemma resolve_stage_no_parse env request w :
  List.filter is_add_file (trace (snd (resolve_stage env request w))) =
  List.filter is_add_file (trace w).
Proof.
  rewrite resolve_stage_cases, load_or_create_cases. cbv zeta. simpl.
  destruct (load_library env _ (store w)) as [[lib|e] s1]; simpl.
  - rewrite <- !app_assoc, List.filter_app. simpl. apply app_nil_r.
  - destruct (create_new_library env _ s1) as [[lib|e'] s2]; simpl;
      rewrite <- ?app_assoc, List.filter_app; simpl; apply app_nil_r.
Qed.

Lemma except_clauses_fs request (r : Result AddFileResponse) w :
  fs (snd (except_clauses request r w)) = fs w /\
  store (snd (except_clauses request r w)) = store w.
Proof.
  unfold except_clauses. destruct r as [resp|e]; [easy|].
  destruct (is_HTTPError e); [easy|]. destruct (is_Exception e); easy.
Qed.

Lemma except_clauses_trace q request (r : Result AddFileResponse) w :
  (forall lvl msg, q (Log lvl msg) = false) ->
  List.filter q (trace (snd (except_clauses request r w))) = List.filter q (trace w).
Proof.
  intros Hq. unfold except_clauses. destruct r as [resp|e]; [easy|].
  destruct (is_HTTPError e); [|destruct (is_Exception e)]; simpl;
    rewrite ?List.filter_app; simpl; rewrite ?Hq, ?app_nil_r; reflexivity.
Qed.

Lemma try_except_part_eq env request w :
  try_except_part env request w =
  (fst (except_clauses request (fst (fst (try_suite env request w)))
          (snd (try_suite env request w))),
   snd (fst (try_suite env request w)),
   snd (except_clauses request (fst (fst (try_suite env request w)))
          (snd (try_suite env request w)))).
Proof.
  unfold try_except_part.
  destruct (try_suite env request w) as [[r tp] w1]. cbn [fst snd].
  now destruct (except_clauses request r w1).
Qed.

Lemma try_suite_eq env request w :
  try_suite env request w =
  match resolve_stage env request w with
  | (Raise e, w1) => (Raise e, None, w1)
  | (Ok lib, w1) =>
      match download_file_from_uri env (blob_uri request) (filename request) w1 with
      | (Raise e, w2) => (Raise e, None, w2)
      | (Ok p, w2) =>
          (fst (parse_stage env request lib p w2), Some p,
           snd (parse_stage env request lib p w2))
      end
  end.
Proof.
  unfold try_suite.
  destruct (resolve_stage env request w) as [[lib|e] w1]; [|reflexivity].
  destruct (download_file_from_uri env _ _ w1) as [[p|e] w2]; [|reflexivity].
  now destruct (parse_stage env request lib p w2).
Qed.

(** The local [temp_file_path] is either unset or the staging path. *)
Lemma temp_file_path_is_local_path env request w (p : string) :
  snd (fst (try_except_part env request w)) = Some p ->
  p = local_path_of env (filename request).
Proof.
  rewrite try_except_part_eq. cbn [fst snd]. rewrite try_suite_eq.
  destruct (resolve_stage env request w) as [[lib|e] w1]; [|discriminate].
  destruct (download_file_from_uri env _ _ w1) as [[p'|e] w2] eqn:Hd;
    [|discriminate].
  cbn [fst snd]. intros [= <-].
  eapply download_returns_local_path, Hd.
Qed.

(** Nothing before the [finally] suite looks at what [os.remove] would do. *)
Lemma try_except_part_ignores_remove env f request w :
  try_except_part (with_remove_error env f) request w = try_except_part env request w.
Proof. reflexivity. Qed.

(** C10.  Whatever exception [load_library] raises -- its class is not looked
    at -- it is dropped and [create_new_library] is called for the same name,
    on the store as the failed load left it; the result of that call is the
    result of library resolution.  So resolution fails only with an exception
    raised by [create_new_library] after [load_library] had raised, and when
    the creation succeeds the pipeline goes on with the library created. *)
Theorem load_failure_falls_back_to_create env request w :
  let n := library_name request in
  (forall e s1, load_library env n (store w) = (Raise e, s1) ->
     fst (load_or_create env request w) = fst (create_new_library env n s1) /\
     store (snd (load_or_create env request w)) = snd (create_new_library env n s1) /\
     trace (snd (load_or_create env request w)) =
       trace w ++ [CallLoadLibrary n;
                   Log INFO [Lit "Creating new library: "; Val (PStr n)];
                   CallCreateNewLibrary n]) /\
  (forall e', fst (load_or_create env request w) = Raise e' ->
     exists e s1, load_library env n (store w) = (Raise e, s1) /\
                  fst (create_new_library env n s1) = Raise e') /\
  (forall e s1 lib, load_library env n (store w) = (Raise e, s1) ->
     fst (create_new_library env n s1) = Ok lib ->
     fst (resolve_stage env request w) = Ok lib).
Proof.
  intros n. split; [|split].
  - intros e s1 H. rewrite load_or_create_cases. fold n. rewrite H. simpl. easy.
  - intros e'. rewrite load_or_create_cases. fold n.
    destruct (load_library env n (store w)) as [[lib|e] s1]; simpl; [discriminate|].
    intros H. now exists e, s1.
  - intros e s1 lib H Hc.
    rewrite resolve_stage_cases, load_or_create_cases. fold n. simpl.
    rewrite H, Hc. reflexivity.
Qed.

(** C8.  The outcome of the endpoint is the outcome pending when the
    [finally] suite is entered, and it is the same whatever [os.remove] would
    answer.  A removal that fails leaves the store and the filesystem as they
    were and adds a WARNING record, nothing else; when the staged file is
    already gone, [os.remove] is not even called and nothing is logged. *)
Theorem cleanup_failure_is_only_logged env request w :
  let o := fst (fst (try_except_part env request w)) in
  let temp_file_path := snd (fst (try_except_part env request w)) in
  let w2 := snd (try_except_part env request w) in
  let w3 := snd (add_file_to_library env request w) in
  fst (add_file_to_library env request w) = o /\
  (forall f, fst (add_file_to_library (with_remove_error env f) request w) =
             fst (add_file_to_library env request w)) /\
  store w3 = store w2 /\
  (forall p msg, temp_file_path = Some p -> is_Some (fs w2 !! p) ->
     remove_error env p (fs w2) = Some msg ->
     fs w3 = fs w2 /\
     trace w3 = trace w2 ++ [CallExists p; CallRemove p;
                             Log WARNING [Lit "Failed to cleanup temp file: ";
                                          Val (PStr msg)]]) /\
  (forall p, temp_file_path = Some p -> fs w2 !! p = None ->
     fs w3 = fs w2 /\ trace w3 = trace w2 ++ [CallExists p]).
Proof.
  intros o tp w2 w3. subst o w3.
  split; [now rewrite add_file_to_library_eq|].
  split.
  { intros f. rewrite !add_file_to_library_eq. simpl.
    now rewrite try_except_part_ignores_remove. }
  rewrite add_file_to_library_eq. simpl. fold tp w2.
  rewrite finally_suite_cases.
  split; [|split].
  - destruct tp as [p|]; [|reflexivity].
    destruct (String.eqb p ""); [reflexivity|].
    destruct (fs w2 !! p); [|reflexivity].
    destruct (remove_error env p (fs w2)); reflexivity.
  - intros p msg Htp [d Hd] Hr.
    assert (Hne : String.eqb p "" = false).
    { rewrite (temp_file_path_is_local_path _ _ _ _ Htp).
      apply local_path_of_nonempty. }
    rewrite Htp, Hne, Hd, Hr. simpl. split; reflexivity.
  - intros p Htp Hd.
    assert (Hne : String.eqb p "" = false).
    { rewrite (temp_file_path_is_local_path _ _ _ _ Htp).
      apply local_path_of_nonempty. }
    rewrite Htp, Hne, Hd. simpl. split; reflexivity.
Qed.

(** More of what the stages leave alone, for the theorems below. *)

Lemma download_store env (uri fname : string) w :
  store (snd (download_file_from_uri env uri fname w)) = store w.
Proof.
  rewrite download_cases. cbv zeta.
  destruct (client_get env uri) as [resp|e]; [|reflexivity].
  destruct (is_success resp); [|reflexivity].
  destruct (open_error env _ (fs w)); [reflexivity|].
  destruct (write_error env _ (content resp) _); reflexivity.
Qed.

Lemma download_trace q env (uri fname : string) w :
  (forall u f t, q (CallGet u f t) = false) ->
  (forall p, q (CallOpenWb p) = false) ->
  (forall p d, q (CallWrite p d) = false) ->
  List.filter q (trace (snd (download_file_from_uri env uri fname w))) =
  List.filter q (trace w).
Proof.
  intros Hg Ho Hw. rewrite download_cases. cbv zeta.
  destruct (client_get env uri) as [resp|e];
    [destruct (is_success resp);
     [destruct (open_error env _ (fs w));
      [|destruct (write_error env _ (content resp) _)]|]|];
    same_trace; rewrite List.filter_app; simpl;
    rewrite ?Hg, ?Ho, ?Hw; apply app_nil_r.
Qed.

Lemma parse_stage_trace q env request (lib : Library) (p : string) w :
  (forall lvl msg, q (Log lvl msg) = false) ->
  (forall p', q (CallAddFile p') = false) ->
  List.filter q (trace (snd (parse_stage env request lib p w))) =
  List.filter q (trace w).
Proof.
  intros Hl Ha. rewrite parse_stage_cases. cbv zeta.
  destruct (add_file env lib p (fs w, store w)) as [[v|e] [fs' s']]; simpl;
    rewrite List.filter_app; simpl; rewrite ?Hl, ?Ha; apply app_nil_r.
Qed.

Lemma finally_suite_trace q env (temp_file_path : option string) w :
  (forall lvl msg, q (Log lvl msg) = false) ->
  (forall p, q (CallExists p) = false) ->
  (forall p, q (CallRemove p) = false) ->
  List.filter q (trace (snd (finally_suite env temp_file_path w))) =
  List.filter q (trace w).
Proof.
  intros Hl He Hr. rewrite finally_suite_cases.
  destruct temp_file_path as [p|]; [|reflexivity].
  destruct (String.eqb p ""); [reflexivity|].
  destruct (fs w !! p); [destruct (remove_error env p (fs w))|]; same_trace;
    rewrite List.filter_app; simpl; rewrite ?Hl, ?He, ?Hr; apply app_nil_r.
Qed.

Lemma finally_suite_store env (temp_file_path : option string) w :
  store (snd (finally_suite env temp_file_path w)) = store w.
Proof.
  rewrite finally_suite_cases.
  destruct temp_file_path as [p|]; [|reflexivity].
  destruct (String.eqb p ""); [reflexivity|].
  destruct (fs w !! p); [destruct (remove_error env p (fs w))|]; reflexivity.
Qed.

(** After the [finally] suite the staged file is gone, when [os.remove] does
    not fail. *)
Lemma finally_suite_removes env (p : string) w :
  String.eqb p "" = false ->
  (forall fs0, remove_error env p fs0 = None) ->
  fs (snd (finally_suite env (Some p) w)) !! p = None.
Proof.
  intros Hne Hrm. rewrite finally_suite_cases, Hne.
  destruct (fs w !! p) eqn:Hp; [|exact Hp].
  rewrite Hrm. simpl. apply lookup_delete_eq.
Qed.

(** C1, as the code has it.  Take a call before which no file sits at the
    staging path.  On every exit path -- resolution failure, fetch failure,
    parse failure, success, an exception nobody catches -- no file sits there
    after the call either, provided [os.remove] does not fail for that path
    (a failure is only logged, and the file stays) and the write of the body
    does not fail. *)
Theorem staged_file_removed_unless_remove_fails env request w :
  let p := local_path_of env (filename request) in
  (forall fs0, remove_error env p fs0 = None) ->
  (forall d fs0, write_error env p d fs0 = None) ->
  fs w !! p = None ->
  fs (snd (add_file_to_library env request w)) !! p = None.
Proof.
  intros p Hrm Hwr Hw.
  rewrite add_file_to_library_eq. cbn [snd].
  rewrite try_except_part_eq. cbn [fst snd]. rewrite try_suite_eq.
  pose proof (resolve_stage_fs env request w) as Hfs.
  destruct (resolve_stage env request w) as [[lib|e] w1]; cbn [fst snd] in *.
  2:{ rewrite finally_suite_cases. cbn [snd].
      rewrite (proj1 (except_clauses_fs _ _ _)), Hfs. exact Hw. }
  rewrite download_cases. cbv zeta. fold p. rewrite Hfs.
  assert (Hnone : forall e w', fs w' = fs w ->
            fs (snd (finally_suite env None
                       (snd (except_clauses request (Raise e) w')))) !! p = None).
  { intros e w' Hw'. rewrite finally_suite_cases. cbn [snd].
    rewrite (proj1 (except_clauses_fs _ _ _)), Hw'. exact Hw. }
  destruct (client_get env (blob_uri request)) as [resp|e]; cbn [fst snd].
  2:{ apply Hnone. simpl. exact Hfs. }
  destruct (is_success resp); cbn [fst snd].
  2:{ apply Hnone. simpl. exact Hfs. }
  destruct (open_error env p (fs w)); cbn [fst snd].
  { apply Hnone. simpl. exact Hfs. }
  rewrite Hwr. cbn [fst snd].
  apply finally_suite_removes; [apply local_path_of_nonempty|exact Hrm].
Qed.

(** C2, as the code has it.  Once the library is resolved, a GET that raises
    an [httpx.HTTPError], or a response without a success status, gives 400,
    and the parser has not been called.  After a fetch that returned, an
    exception from the parser is classified by its type, as any other: 500
    when it is an [Exception] that is not an [httpx.HTTPError], 400 when it
    is an [httpx.HTTPError], and it propagates as it is otherwise. *)
Theorem errors_are_classified_by_type env request w (lib : Library) w1 :
  resolve_stage env request w = (Ok lib, w1) ->
  (forall e, client_get env (blob_uri request) = Raise e ->
     is_HTTPError e = true ->
     fst (add_file_to_library env request w) =
       HTTPException 400 ("Failed to download file from blob storage: " +:+ exn_str e) /\
     List.filter is_add_file (trace (snd (add_file_to_library env request w))) =
       List.filter is_add_file (trace w)) /\
  (forall resp, client_get env (blob_uri request) = Ok resp ->
     is_success resp = false ->
     fst (add_file_to_library env request w) =
       HTTPException 400 ("Failed to download file from blob storage: " +:+
                          status_error_str env (blob_uri request) resp) /\
     List.filter is_add_file (trace (snd (add_file_to_library env request w))) =
       List.filter is_add_file (trace w)) /\
  (forall (p : string) w2 e,
     download_file_from_uri env (blob_uri request) (filename request) w1 = (Ok p, w2) ->
     fst (add_file env lib p (fs w2, store w2)) = Raise e ->
     fst (add_file_to_library env request w) =
       if is_HTTPError e then
         HTTPException 400 ("Failed to download file from blob storage: " +:+ exn_str e)
       else if is_Exception e then
         HTTPException 500 ("Failed to add file to library: " +:+ exn_str e)
       else Propagated e).
Proof.
  intros Hres.
  pose proof (resolve_stage_no_parse env request w) as Htr.
  rewrite Hres in Htr. cbn [snd] in Htr.
  assert (Hfail : forall e, is_HTTPError e = true ->
            download_file_from_uri env (blob_uri request) (filename request) w1
              = (Raise e, record (CallGet (blob_uri request) true 300) w1) ->
            fst (add_file_to_library env request w) =
              HTTPException 400
                ("Failed to download file from blob storage: " +:+ exn_str e) /\
            List.filter is_add_file (trace (snd (add_file_to_library env request w))) =
              List.filter is_add_file (trace w)).
  { intros e He Hd.
    rewrite add_file_to_library_eq. cbn [fst snd].
    rewrite try_except_part_eq. cbn [fst snd].
    rewrite try_suite_eq, Hres, Hd. cbn [fst snd].
    unfold except_clauses. rewrite He. cbn [fst snd]. split; [reflexivity|].
    rewrite finally_suite_cases. cbn [snd]. same_trace.
    rewrite !List.filter_app. simpl. rewrite !app_nil_r. exact Htr. }
  split; [|split].
  - intros e Hget He. apply Hfail; [exact He|].
    rewrite download_cases, Hget. reflexivity.
  - intros resp Hget Hs.
    apply (Hfail (HTTPStatusError (status_error_str env (blob_uri request) resp)));
      [reflexivity|].
    rewrite download_cases, Hget, Hs. reflexivity.
  - intros p w2 e Hd Hp.
    rewrite add_file_to_library_eq. cbn [fst snd].
    rewrite try_except_part_eq. cbn [fst snd].
    rewrite try_suite_eq, Hres, Hd. cbn [fst snd].
    rewrite parse_stage_cases. cbv zeta.
    destruct (add_file env lib p (fs w2, store w2)) as [[v|e'] [fs' s']];
      cbn [fst snd] in *; [discriminate|].
    injection Hp as ->. unfold except_clauses.
    destruct (is_HTTPError e); [reflexivity|].
    destruct (is_Exception e); reflexivity.
Qed.

(** C4.  A call that returns a response went through a resolved library, a
    fetch that returned and a parser that returned some value [v]; the
    [parsing_output] of the response is [v] itself when [v] is a mapping, and
    the empty mapping otherwise, which happens only for a falsy [v].  And
    whenever the three stages succeed, a mapping is passed through as it is,
    and any falsy value -- [None], [False], [0], [""], [{}] -- is answered
    with the empty mapping: in both cases the call does return. *)
Theorem parsing_output_passes_through env request w :
  (forall r, fst (add_file_to_library env request w) = Returned r ->
     exists (lib : Library) w1 (p : string) w2 (v : pyval),
       resolve_stage env request w = (Ok lib, w1) /\
       download_file_from_uri env (blob_uri request) (filename request) w1
         = (Ok p, w2) /\
       fst (add_file env lib p (fs w2, store w2)) = Ok v /\
       parsing_output r = match v with PDict d => d | _ => [] end /\
       (truthy v = true -> v = PDict (parsing_output r)) /\
       (truthy v = false -> parsing_output r = []) /\
       resp_filename r = filename request /\
       resp_library_name r = library_name request) /\
  (forall (lib : Library) w1 (p : string) w2 (v : pyval),
     resolve_stage env request w = (Ok lib, w1) ->
     download_file_from_uri env (blob_uri request) (filename request) w1
       = (Ok p, w2) ->
     fst (add_file env lib p (fs w2, store w2)) = Ok v ->
     (forall d, v = PDict d ->
        fst (add_file_to_library env request w) =
          Returned (mkAddFileResponse (filename request) (library_name request) d
                      "File added successfully to library")) /\
     (truthy v = false ->
        fst (add_file_to_library env request w) =
          Returned (mkAddFileResponse (filename request) (library_name request) []
                      "File added successfully to library"))).
Proof.
  split.
  - intros r. rewrite add_file_to_library_eq. cbn [fst snd].
    rewrite try_except_part_eq. cbn [fst snd]. rewrite try_suite_eq.
    destruct (resolve_stage env request w) as [[lib|e] w1] eqn:Hres.
    2:{ unfold except_clauses. cbn [fst snd].
        destruct (is_HTTPError e); [discriminate|].
        destruct (is_Exception e); discriminate. }
    destruct (download_file_from_uri env _ _ w1) as [[p|e] w2] eqn:Hd.
    2:{ unfold except_clauses. cbn [fst snd].
        destruct (is_HTTPError e); [discriminate|].
        destruct (is_Exception e); discriminate. }
    cbn [fst snd]. rewrite parse_stage_cases. cbv zeta.
    destruct (add_file env lib p (fs w2, store w2)) as [[v|e] [fs' s']] eqn:Hp;
      cbn [fst snd].
    2:{ unfold except_clauses.
        destruct (is_HTTPError e); [discriminate|].
        destruct (is_Exception e); discriminate. }
    unfold AddFileResponse_init, except_clauses.
    destruct (py_or v (PDict [])) as [| | | |d] eqn:Hor; cbn [fst snd];
      try discriminate.
    intros [= <-]. exists lib, w1, p, w2, v.
    rewrite Hp. cbn [fst parsing_output resp_filename resp_library_name].
    split; [reflexivity|]. split; [exact Hd|]. split; [reflexivity|].
    unfold py_or in Hor.
    split; [|split]; [| |split; [|split; reflexivity]].
    + destruct (truthy v) eqn:Ht.
      * now rewrite Hor.
      * injection Hor as <-. destruct v as [| | | |d']; try reflexivity.
        destruct d'; [reflexivity|discriminate].
    + intros Ht. rewrite Ht in Hor. exact Hor.
    + intros Ht. rewrite Ht in Hor. congruence.
  - intros lib w1 p w2 v Hres Hd Hp.
    assert (Hout : forall d, py_or v (PDict []) = PDict d ->
              fst (add_file_to_library env request w) =
                Returned (mkAddFileResponse (filename request)
                            (library_name request) d
                            "File added successfully to library")).
    { intros d Hor.
      rewrite add_file_to_library_eq. cbn [fst snd].
      rewrite try_except_part_eq. cbn [fst snd].
      rewrite try_suite_eq, Hres, Hd. cbn [fst snd].
      rewrite parse_stage_cases. cbv zeta.
      destruct (add_file env lib p (fs w2, store w2)) as [[v'|e] [fs' s']];
        cbn [fst snd] in *; [|discriminate].
      injection Hp as ->. rewrite Hor. reflexivity. }
    split.
    + intros d ->. apply Hout. unfold py_or. simpl.
      destruct d; reflexivity.
    + intros Ht. apply Hout. unfold py_or. now rewrite Ht.
Qed.

End Coordinator.

(** ** Library resolution against a store that keeps its contract

    What "the library exists" means is the store's business.  The store is
    taken with the list of the library names it holds ([cards], what
    [get_all_library_cards] reports) and with the contract the pipeline
    relies on: loading a library that is there succeeds and changes nothing,
    loading one that is not there raises, creating one that is not there adds
    its name, and parsing a file adds no library. *)
Section StoreContract.

Context {Store Library : Type}.
Variable env : Env Store Library.
Variable cards : Store -> list string.

Hypothesis load_present : forall n s,
  In n (cards s) -> exists lib, load_library env n s = (Ok lib, s).
Hypothesis load_absent : forall n s,
  ~ In n (cards s) -> exists e, load_library env n s = (Raise e, s).
Hypothesis create_absent : forall n s,
  ~ In n (cards s) ->
  exists lib s', create_new_library env n s = (Ok lib, s') /\ cards s' = n :: cards s.
Hypothesis add_file_cards : forall lib p st,
  cards (snd (snd (add_file env lib p st))) = cards (snd st).

Implicit Types (w : World Store) (request : AddFileRequest).

Lemma load_or_create_present request w :
  In (library_name request) (cards (store w)) ->
  (exists lib, fst (load_or_create env request w) = Ok lib) /\
  store (snd (load_or_create env request w)) = store w /\
  List.filter is_create (trace (snd (load_or_create env request w))) =
    List.filter is_create (trace w).
Proof.
  intros Hin. destruct (load_present _ _ Hin) as [lib Hl].
  rewrite load_or_create_cases. cbv zeta. rewrite Hl. cbn [fst snd store trace].
  split; [now exists lib|]. split; [reflexivity|].
  rewrite List.filter_app. simpl. apply app_nil_r.
Qed.

Lemma load_or_create_absent request w :
  ~ In (library_name request) (cards (store w)) ->
  (exists lib, fst (load_or_create env request w) = Ok lib) /\
  cards (store (snd (load_or_create env request w))) =
    library_name request :: cards (store w).
Proof.
  intros Hnin. destruct (load_absent _ _ Hnin) as [e Hl].
  destruct (create_absent _ _ Hnin) as (lib & s' & Hc & Hcards).
  rewrite load_or_create_cases. cbv zeta. rewrite Hl, Hc. cbn [fst snd store].
  split; [now exists lib|exact Hcards].
Qed.

(** After resolution, the rest of the pipeline neither creates a library nor
    changes the list of names. *)
Lemma ingest_after_resolution request w :
  cards (store (snd (add_file_to_library env request w))) =
    cards (store (snd (load_or_create env request
                         (mkWorld (fs w) (store w) (trace w ++ opening_logs request))))) /\
  List.filter is_create (trace (snd (add_file_to_library env request w))) =
    List.filter is_create
      (trace (snd (load_or_create env request
                     (mkWorld (fs w) (store w) (trace w ++ opening_logs request))))).
Proof.
  rewrite add_file_to_library_eq. cbn [snd].
  rewrite finally_suite_store, finally_suite_trace by reflexivity.
  rewrite try_except_part_eq. cbn [fst snd].
  rewrite (proj2 (except_clauses_fs _ _ _)), except_clauses_trace by reflexivity.
  rewrite try_suite_eq, resolve_stage_cases.
  destruct (load_or_create env request _) as [[lib|e] w1]; cbn [fst snd];
    [|split; reflexivity].
  set (w1' := record _ w1).
  assert (H1 : store w1' = store w1) by reflexivity.
  assert (H2 : List.filter is_create (trace w1') = List.filter is_create (trace w1)).
  { subst w1'. same_trace. rewrite List.filter_app. simpl. apply app_nil_r. }
  pose proof (download_store env (blob_uri request) (filename request) w1') as Hds.
  pose proof (download_trace is_create env (blob_uri request) (filename request) w1'
                ltac:(reflexivity) ltac:(reflexivity) ltac:(reflexivity)) as Hdt.
  destruct (download_file_from_uri env _ _ w1') as [[p|e] w2]; cbn [fst snd] in *.
  2:{ rewrite Hds, Hdt, H1, H2. split; reflexivity. }
  rewrite parse_stage_trace by reflexivity.
  rewrite parse_stage_cases. cbv zeta.
  pose proof (add_file_cards lib p (fs w2, store w2)) as Hc.
  destruct (add_file env lib p (fs w2, store w2)) as [[v|e] [fs' s']];
    cbn [fst snd store] in *; rewrite Hc, Hds, Hdt, H1, H2; split; reflexivity.
Qed.

(** C3.  Library resolution is load-or-create.  It never fails; when the
    library is there, it is loaded, the store stays as it is and
    [create_new_library] is not called; when it is not there, it is created.
    So after one ingestion the library is there, no name occurs twice if none
    did before, and a second ingestion for the same library name leaves the
    list of libraries as it is, without a call of [create_new_library]. *)
Theorem library_resolution_is_load_or_create request w :
  let n := library_name request in
  let w1 := snd (add_file_to_library env request w) in
  (exists lib, fst (load_or_create env request w) = Ok lib) /\
  (In n (cards (store w)) ->
     store (snd (load_or_create env request w)) = store w /\
     List.filter is_create (trace (snd (load_or_create env request w))) =
       List.filter is_create (trace w)) /\
  (~ In n (cards (store w)) ->
     cards (store (snd (load_or_create env request w))) = n :: cards (store w)) /\
  In n (cards (store w1)) /\
  (List.NoDup (cards (store w)) -> List.NoDup (cards (store w1))) /\
  (forall request', library_name request' = n ->
     let w2 := snd (add_file_to_library env request' w1) in
     cards (store w2) = cards (store w1) /\
     List.filter is_create (trace w2) = List.filter is_create (trace w1)).
Proof.
  intros n w1.
  assert (Hdec : In n (cards (store w)) \/ ~ In n (cards (store w))).
  { destruct (in_dec string_dec n (cards (store w))); [now left|now right]. }
  assert (Hexisting : forall request' w0,
            In (library_name request') (cards (store w0)) ->
            cards (store (snd (add_file_to_library env request' w0))) = cards (store w0) /\
            List.filter is_create (trace (snd (add_file_to_library env request' w0))) =
              List.filter is_create (trace w0)).
  { intros request' w0 Hin.
    destruct (ingest_after_resolution request' w0) as [Hc Ht].
    destruct (load_or_create_present request'
                (mkWorld (fs w0) (store w0) (trace w0 ++ opening_logs request')) Hin)
      as (_ & Hs & Hf).
    rewrite Hc, Ht, Hs, Hf. cbn [store trace]. split; [reflexivity|].
    rewrite List.filter_app. simpl. apply app_nil_r. }
  assert (Hcards1 : cards (store w1) = cards (store w) /\ In n (cards (store w)) \/
                    cards (store w1) = n :: cards (store w) /\ ~ In n (cards (store w))).
  { destruct Hdec as [Hin|Hnin].
    - left. split; [apply (Hexisting request w Hin)|exact Hin].
    - right. split; [|exact Hnin]. subst w1.
      rewrite (proj1 (ingest_after_resolution request w)).
      apply (load_or_create_absent request
               (mkWorld (fs w) (store w) (trace w ++ opening_logs request)) Hnin). }
  assert (Hin1 : In n (cards (store w1))).
  { destruct Hcards1 as [[-> Hin]|[-> _]]; [exact Hin|now left]. }
  split.
  { destruct Hdec as [Hin|Hnin];
      [apply (load_or_create_present request w Hin)
      |apply (load_or_create_absent request w Hnin)]. }
  split; [intros Hin; apply (load_or_create_present request w Hin)|].
  split; [intros Hnin; apply (load_or_create_absent request w Hnin)|].
  split; [exact Hin1|].
  split.
  { intros Hnd. destruct Hcards1 as [[-> _]|[-> Hnin]]; [exact Hnd|].
    now constructor. }
  intros request' Hn. apply Hexisting. now rewrite Hn.
Qed.

End StoreContract.

Lemma failed_fetch_creates_no_file_witness :
  (exists resp, client_get Demo.env "https://example/missing.pdf" = Ok resp /\
                is_success resp = false) /\
  fs (snd (download_file_from_uri Demo.env "https://example/missing.pdf" "a.pdf"
             Demo.w0)) = fs Demo.w0.
Proof.
  assert (H : exists resp, client_get Demo.env "https://example/missing.pdf" = Ok resp /\
                           is_success resp = false).
  { exists (mkResponse 404 []). split; reflexivity. }
  split; [exact H|].
  exact (proj1 (proj2 (failed_fetch_creates_no_file Demo.env
           "https://example/missing.pdf" "a.pdf" Demo.w0 (or_intror H)))).
Defined.

(** ** The concrete store keeps the contract *)

Lemma demo_load_present (n : string) (s : list string) :
  In n s -> exists lib, load_library Demo.env n s = (Ok lib, s).
Proof.
  intros Hin. exists n. simpl. unfold Demo.load, Demo.has_library.
  replace (existsb (String.eqb n) s) with true; [reflexivity|].
  symmetry. apply existsb_exists. exists n. split; [exact Hin|apply String.eqb_refl].
Qed.

Lemma demo_load_absent (n : string) (s : list string) :
  ~ In n s -> exists e, load_library Demo.env n s = (Raise e, s).
Proof.
  intros Hnin. exists (Demo.LibraryNotFound n). simpl.
  unfold Demo.load, Demo.has_library.
  destruct (existsb (String.eqb n) s) eqn:Hex; [|reflexivity].
  apply existsb_exists in Hex. destruct Hex as (x & Hx & Heq).
  apply String.eqb_eq in Heq. subst x. contradiction.
Qed.

Lemma demo_create_absent (n : string) (s : list string) :
  ~ In n s ->
  exists lib s', create_new_library Demo.env n s = (Ok lib, s') /\ s' = n :: s.
Proof. intros _. exists n, (n :: s). split; reflexivity. Qed.

Lemma demo_add_file_cards (lib p : string) (st : FS * list string) :
  snd (snd (add_file Demo.env lib p st)) = snd st.
Proof. simpl. unfold Demo.parse. destruct (fst st !! p); reflexivity. Qed.

(** ** The theorems at concrete inputs *)

Lemma staged_file_removed_unless_remove_fails_witness :
  (forall fs0, remove_error Demo.env (local_path_of Demo.env "a.pdf") fs0 = None) /\
  (forall d fs0, write_error Demo.env (local_path_of Demo.env "a.pdf") d fs0 = None) /\
  fs Demo.w0 !! local_path_of Demo.env "a.pdf" = None /\
  fs (snd (add_file_to_library Demo.env Demo.request_a Demo.w0))
    !! local_path_of Demo.env "a.pdf" = None.
Proof.
  split; [intros; reflexivity|]. split; [intros; reflexivity|].
  split; [reflexivity|].
  apply (staged_file_removed_unless_remove_fails Demo.env Demo.request_a Demo.w0);
    intros; reflexivity.
Defined.

(** C1, refuted as stated.  Where [os.remove] is refused, the call returns
    its response and the staged file is still there. *)
Lemma staged_file_survives_failed_remove :
  fs Demo.w0 !! "/tmp/llmware_a.pdf" = None /\
  fst (add_file_to_library Demo.env_no_remove Demo.request_a Demo.w0) =
    Returned (mkAddFileResponse "a.pdf" "lib1" [("docs_added", PInt 1)]
                "File added successfully to library") /\
  fs (snd (add_file_to_library Demo.env_no_remove Demo.request_a Demo.w0))
    !! "/tmp/llmware_a.pdf" = Some Demo.pdf.
Proof. repeat split; vm_compute; reflexivity. Qed.

(** The other way a staged file outlives the call: [open] has created it, the
    write fails, and [temp_file_path] was never assigned, so the [finally]
    suite has nothing to remove. *)
Lemma staged_file_survives_failed_write :
  fst (add_file_to_library Demo.env_disk_full Demo.request_a Demo.w0) =
    HTTPException 500 "Failed to add file to library: No space left on device" /\
  snd (fst (try_except_part Demo.env_disk_full Demo.request_a Demo.w0)) = None /\
  fs (snd (add_file_to_library Demo.env_disk_full Demo.request_a Demo.w0))
    !! "/tmp/llmware_a.pdf" = Some [].
Proof. repeat split; vm_compute; reflexivity. Qed.

Lemma errors_are_classified_by_type_witness :
  resolve_stage Demo.env Demo.request_missing Demo.w0 =
    (Ok "lib1", snd (resolve_stage Demo.env Demo.request_missing Demo.w0)) /\
  client_get Demo.env (blob_uri Demo.request_missing) = Ok (mkResponse 404 []) /\
  is_success (mkResponse 404 []) = false /\
  fst (add_file_to_library Demo.env Demo.request_missing Demo.w0) =
    HTTPException 400
      ("Failed to download file from blob storage: " +:+
       status_error_str Demo.env (blob_uri Demo.request_missing) (mkResponse 404 [])).
Proof.
  assert (H : resolve_stage Demo.env Demo.request_missing Demo.w0 =
    (Ok "lib1", snd (resolve_stage Demo.env Demo.request_missing Demo.w0)))
    by reflexivity.
  split; [exact H|]. split; [reflexivity|]. split; [reflexivity|].
  exact (proj1 (proj1 (proj2 (errors_are_classified_by_type Demo.env
                  Demo.request_missing Demo.w0 _ _ H))
                (mkResponse 404 []) eq_refl eq_refl)).
Defined.

(** C2, refuted as stated.  The fetch has returned and the parser has been
    called; the parser raises an [httpx.HTTPError], and the caller is
    answered 400. *)
Lemma parser_http_error_is_answered_400 :
  (exists w1 w2,
     resolve_stage Demo.env_parser_http_error Demo.request_a Demo.w0 = (Ok "lib1", w1) /\
     download_file_from_uri Demo.env_parser_http_error (blob_uri Demo.request_a)
       (filename Demo.request_a) w1 = (Ok "/tmp/llmware_a.pdf", w2) /\
     fst (add_file Demo.env_parser_http_error "lib1" "/tmp/llmware_a.pdf"
            (fs w2, store w2)) =
       Raise (Exn HTTPErrorC "parser could not reach its backend")) /\
  fst (add_file_to_library Demo.env_parser_http_error Demo.request_a Demo.w0) =
    HTTPException 400
      "Failed to download file from blob storage: parser could not reach its backend".
Proof.
  split; [|vm_compute; reflexivity].
  eexists _, _. repeat split; reflexivity.
Qed.

Lemma library_resolution_is_load_or_create_witness :
  In "lib1" (store (snd (add_file_to_library Demo.env Demo.request_a Demo.w0))) /\
  store (snd (add_file_to_library Demo.env Demo.request_a'
                (snd (add_file_to_library Demo.env Demo.request_a Demo.w0)))) =
  store (snd (add_file_to_library Demo.env Demo.request_a Demo.w0)).
Proof.
  pose proof (library_resolution_is_load_or_create Demo.env (fun s => s)
                demo_load_present demo_load_absent demo_create_absent
                demo_add_file_cards Demo.request_a Demo.w0) as H.
  cbv zeta in H.
  destruct H as (_ & _ & _ & Hin & _ & Htwice).
  split; [exact Hin|].
  exact (proj1 (Htwice Demo.request_a' eq_refl)).
Defined.

Lemma parsing_output_passes_through_witness :
  (exists w1 w2,
     resolve_stage Scenarios.env_parser_returns_none Demo.request_a Demo.w0
       = (Ok "lib1", w1) /\
     download_file_from_uri Scenarios.env_parser_returns_none
       "https://example/a.pdf" "a.pdf" w1 = (Ok "/tmp/llmware_a.pdf", w2) /\
     fst (add_file Scenarios.env_parser_returns_none "lib1" "/tmp/llmware_a.pdf"
            (fs w2, store w2)) = Ok PNone) /\
  truthy PNone = false /\
  fst (add_file_to_library Scenarios.env_parser_returns_none Demo.request_a Demo.w0) =
    Returned (mkAddFileResponse "a.pdf" "lib1" []
                "File added successfully to library") /\
  fst (add_file_to_library Demo.env Demo.request_a Demo.w0) =
    Returned (mkAddFileResponse "a.pdf" "lib1" [("docs_added", PInt 1)]
                "File added successfully to library").
Proof.
  split; [eexists _, _; repeat split; reflexivity|].
  split; [reflexivity|]. split.
  - exact (proj2 (proj2 (parsing_output_passes_through
                           Scenarios.env_parser_returns_none Demo.request_a Demo.w0)
                    "lib1"
                    (snd (resolve_stage Scenarios.env_parser_returns_none
                            Demo.request_a Demo.w0))
                    "/tmp/llmware_a.pdf"
                    (snd (download_file_from_uri Scenarios.env_parser_returns_none
                            "https://example/a.pdf" "a.pdf"
                            (snd (resolve_stage Scenarios.env_parser_returns_none
                                    Demo.request_a Demo.w0))))
                    PNone eq_refl eq_refl eq_refl)
             eq_refl).
  - exact (proj1 (proj2 (parsing_output_passes_through Demo.env Demo.request_a Demo.w0)
                    "lib1"
                    (snd (resolve_stage Demo.env Demo.request_a Demo.w0))
                    "/tmp/llmware_a.pdf"
                    (snd (download_file_from_uri Demo.env
                            "https://example/a.pdf" "a.pdf"
                            (snd (resolve_stage Demo.env Demo.request_a Demo.w0))))
                    (PDict [("docs_added", PInt 1)]) eq_refl eq_refl eq_refl)
             [("docs_added", PInt 1)] eq_refl).
Defined.

Lemma cleanup_failure_is_only_logged_witness :
  snd (fst (try_except_part Demo.env_no_remove Demo.request_a Demo.w0))
    = Some "/tmp/llmware_a.pdf" /\
  remove_error Demo.env_no_remove "/tmp/llmware_a.pdf"
    (fs (snd (try_except_part Demo.env_no_remove Demo.request_a Demo.w0)))
    = Some "Permission denied" /\
  fs (snd (add_file_to_library Demo.env_no_remove Demo.request_a Demo.w0)) =
  fs (snd (try_except_part Demo.env_no_remove Demo.request_a Demo.w0)).
Proof.
  split; [reflexivity|]. split; [reflexivity|].
  refine (proj1 (proj1 (proj2 (proj2 (proj2 (cleanup_failure_is_only_logged
            Demo.env_no_remove Demo.request_a Demo.w0))))
          "/tmp/llmware_a.pdf" "Permission denied" eq_refl _ eq_refl)).
  exists Demo.pdf. reflexivity.
Defined.

Lemma load_failure_falls_back_to_create_witness :
  load_library Demo.env_store_down "lib1" (store Demo.w0)
    = (Raise (Exn BaseExceptionC "store unavailable"), []) /\
  fst (load_or_create Demo.env_store_down Demo.request_a Demo.w0) = Ok "lib1".
Proof.
  split; [reflexivity|].
  exact (proj1 (proj1 (load_failure_falls_back_to_create Demo.env_store_down
                  Demo.request_a Demo.w0) _ _ eq_refl)).
Defined.

(** * More about the ingestion endpoint *)

Section Endpoint.

Context {Store Library : Type}.
Implicit Types (env : Env Store Library) (w : World Store).
Implicit Types (request : AddFileRequest) (e : exn).

Lemma is_HTTPError_is_Exception e : is_HTTPError e = true -> is_Exception e = true.
Proof. unfold is_HTTPError, is_Exception. now destruct (exn_class e). Qed.

Lemma except_clauses_raise request e w :
  fst (except_clauses request (Raise e) w) = classified e.
Proof.
  unfold except_clauses, classified.
  destruct (is_HTTPError e); [reflexivity|]. now destruct (is_Exception e).
Qed.

Lemma endpoint_outcome env request w :
  fst (add_file_to_library env request w) =
  fst (except_clauses request (fst (fst (try_suite env request w)))
         (snd (try_suite env request w))).
Proof.
  rewrite add_file_to_library_eq. cbn [fst]. now rewrite try_except_part_eq.
Qed.

Lemma endpoint_world env request w :
  snd (add_file_to_library env request w) =
  snd (finally_suite env (snd (fst (try_suite env request w)))
         (snd (except_clauses request (fst (fst (try_suite env request w)))
                 (snd (try_suite env request w))))).
Proof.
  rewrite add_file_to_library_eq. cbn [snd]. now rewrite try_except_part_eq.
Qed.

(** X1.  The endpoint has three kinds of outcome and no other, each fixed by
    how the [try] suite ends.  It returns the response the suite built, which
    echoes the request's file name and library name.  It raises an
    [HTTPException] exactly for an [Exception] [e] leaving the suite: 400
    when [e] is an [httpx.HTTPError], 500 otherwise, the detail ending with
    the text of [e] as it is.  And the exception leaves unconverted only
    when it is not an [Exception]. *)
Theorem endpoint_answers_200_400_or_500 env request w :
  match fst (add_file_to_library env request w) with
  | Returned r =>
      fst (fst (try_suite env request w)) = Ok r /\
      resp_filename r = filename request /\
      resp_library_name r = library_name request /\
      message r = "File added successfully to library"
  | HTTPException status detail =>
      exists e, fst (fst (try_suite env request w)) = Raise e /\
        is_Exception e = true /\
        ((is_HTTPError e = true /\ status = 400 /\
          detail = "Failed to download file from blob storage: " +:+ exn_str e) \/
         (is_HTTPError e = false /\ status = 500 /\
          detail = "Failed to add file to library: " +:+ exn_str e))
  | Propagated e =>
      fst (fst (try_suite env request w)) = Raise e /\ is_Exception e = false
  end.
Proof.
  rewrite endpoint_outcome.
  assert (Hfields : forall r, fst (fst (try_suite env request w)) = Ok r ->
            resp_filename r = filename request /\
            resp_library_name r = library_name request /\
            message r = "File added successfully to library").
  { intros r. rewrite try_suite_eq.
    destruct (resolve_stage env request w) as [[lib|e] w1]; [|discriminate].
    destruct (download_file_from_uri env _ _ w1) as [[p|e] w2]; [|discriminate].
    cbn [fst snd]. rewrite parse_stage_cases. cbv zeta.
    destruct (add_file env lib p (fs w2, store w2)) as [[v|e] [fs' s']];
      [|discriminate].
    cbn [fst snd]. unfold AddFileResponse_init.
    destruct (py_or v (PDict [])); try discriminate.
    intros [= <-]. cbn. easy. }
  destruct (fst (fst (try_suite env request w))) as [r|e] eqn:Hsuite.
  - cbn [except_clauses fst]. split; [reflexivity|]. now apply Hfields.
  - rewrite except_clauses_raise. unfold classified.
    destruct (is_HTTPError e) eqn:Hh.
    + exists e. split; [reflexivity|].
      split; [now apply is_HTTPError_is_Exception|]. left. easy.
    + destruct (is_Exception e) eqn:He.
      * exists e. split; [reflexivity|]. split; [exact He|]. right. easy.
      * split; [reflexivity|exact He].
Qed.

(** X2.  When [load_library] and then [create_new_library] raise, the
    exception of [create_new_library] is the one classified; nothing is
    fetched, nothing is parsed, no file is touched, and the store is as
    [create_new_library] left it. *)
Theorem resolution_failure_stops_pipeline env request w e (s1 : Store) e' (s2 : Store) :
  load_library env (library_name request) (store w) = (Raise e, s1) ->
  create_new_library env (library_name request) s1 = (Raise e', s2) ->
  fst (add_file_to_library env request w) = classified e' /\
  fs (snd (add_file_to_library env request w)) = fs w /\
  store (snd (add_file_to_library env request w)) = s2 /\
  List.filter is_get (trace (snd (add_file_to_library env request w))) =
    List.filter is_get (trace w) /\
  List.filter is_add_file (trace (snd (add_file_to_library env request w))) =
    List.filter is_add_file (trace w).
Proof.
  intros Hl Hc.
  assert (Hres : resolve_stage env request w =
            (Raise e',
             mkWorld (fs w) s2
               (trace w ++ opening_logs request ++
                [CallLoadLibrary (library_name request);
                 Log INFO [Lit "Creating new library: ";
                           Val (PStr (library_name request))];
                 CallCreateNewLibrary (library_name request)]))).
  { rewrite resolve_stage_cases, load_or_create_cases. cbv zeta.
    cbn [store fs trace]. rewrite Hl, Hc. cbn [fst snd].
    now rewrite <- app_assoc. }
  rewrite endpoint_outcome, endpoint_world, try_suite_eq, Hres. cbn [fst snd].
  rewrite except_clauses_raise. split; [reflexivity|].
  rewrite finally_suite_cases. cbn [snd].
  rewrite (proj1 (except_clauses_fs _ _ _)), (proj2 (except_clauses_fs _ _ _)).
  rewrite !except_clauses_trace by reflexivity. cbn [fs store trace].
  repeat split; rewrite !List.filter_app; simpl; now rewrite app_nil_r.
Qed.

(** X3.  When the response is a success and [open] is refused, the answer is
    500 with the text of the [OSError]; the filesystem is as before, the
    parser is not called, and the [finally] suite finds no path to clean: it
    neither tests nor removes anything. *)
Theorem refused_open_is_500_and_stages_nothing env request w (lib : Library) w1
    (resp : Response) (msg : string) :
  resolve_stage env request w = (Ok lib, w1) ->
  client_get env (blob_uri request) = Ok resp ->
  is_success resp = true ->
  open_error env (local_path_of env (filename request)) (fs w) = Some msg ->
  fst (add_file_to_library env request w) =
    HTTPException 500 ("Failed to add file to library: " +:+ msg) /\
  fs (snd (add_file_to_library env request w)) = fs w /\
  List.filter is_add_file (trace (snd (add_file_to_library env request w))) =
    List.filter is_add_file (trace w) /\
  List.filter is_cleanup_call
    (trace (snd (add_file_to_library env request w))) =
  List.filter is_cleanup_call
    (trace w).
Proof.
  intros Hres Hget Hs Ho.
  pose proof (resolve_stage_fs env request w) as Hfs.
  pose proof (resolve_stage_no_parse env request w) as Hnp.
  assert (Hcl : List.filter is_cleanup_call (trace w1) =
                List.filter is_cleanup_call (trace w)).
  { pose proof Hres as H. rewrite resolve_stage_cases, load_or_create_cases in H.
    cbv zeta in H. cbn [store fs trace] in H.
    destruct (load_library env _ (store w)) as [[lib0|e0] s1]; cbn [fst snd] in H.
    - injection H as _ <-. same_trace. rewrite !List.filter_app. simpl.
      now rewrite !app_nil_r.
    - destruct (create_new_library env _ s1) as [[lib0|e1] s2]; cbn [fst snd] in H;
        [|discriminate].
      injection H as _ <-. same_trace. rewrite !List.filter_app. simpl.
      now rewrite !app_nil_r. }
  rewrite Hres in Hfs, Hnp. cbn [snd] in Hfs, Hnp.
  rewrite endpoint_outcome, endpoint_world, try_suite_eq, Hres.
  rewrite download_cases, Hget, Hs, Hfs, Ho. cbn [fst snd].
  rewrite except_clauses_raise. split; [reflexivity|].
  rewrite finally_suite_cases. cbn [snd].
  rewrite (proj1 (except_clauses_fs _ _ _)).
  unfold except_clauses. cbn. rewrite !List.filter_app. simpl.
  rewrite !app_nil_r. easy.
Qed.

(** X4.  A parser that returns, but returns a truthy value that is not a
    mapping, makes the endpoint answer 500 with the text of the validation
    error; the staged file is removed all the same when [os.remove] is not
    refused. *)
Theorem non_mapping_parser_output_is_500 env request w (lib : Library) w1
    (p : string) w2 (v : pyval) (fs3 : FS) (s3 : Store) :
  resolve_stage env request w = (Ok lib, w1) ->
  download_file_from_uri env (blob_uri request) (filename request) w1 = (Ok p, w2) ->
  add_file env lib p (fs w2, store w2) = (Ok v, (fs3, s3)) ->
  truthy v = true ->
  (forall d, v <> PDict d) ->
  fst (add_file_to_library env request w) =
    HTTPException 500 ("Failed to add file to library: " +:+ validation_error_str env v) /\
  (remove_error env p fs3 = None ->
   fs (snd (add_file_to_library env request w)) !! p = None).
Proof.
  intros Hres Hd Hp Ht Hnd.
  rewrite endpoint_outcome, endpoint_world, try_suite_eq, Hres, Hd. cbn [fst snd].
  rewrite parse_stage_cases. cbv zeta. rewrite Hp. cbn [fst snd].
  unfold py_or. rewrite Ht. unfold AddFileResponse_init.
  assert (Hne : String.eqb p "" = false).
  { rewrite (download_returns_local_path _ _ _ _ _ _ Hd).
    apply local_path_of_nonempty. }
  destruct v as [| | | |d]; try (now destruct (Hnd d));
    (split; [reflexivity|]); intros Hrm;
    rewrite finally_suite_cases, Hne; cbn;
    (destruct (fs3 !! p) eqn:Hl; [|exact Hl]);
    rewrite Hrm; cbn; apply lookup_delete_eq.
Qed.

(** X5.  Whatever the outcome, every call the endpoint makes on a file --
    [open], [write], [os.path.exists], [os.remove] -- and the path it hands to
    the parser name the staging path, the very string
    [os.path.join(tempfile.gettempdir(), "llmware_" + filename)]: no call is
    made with any other path. *)
Theorem endpoint_file_calls_name_staging_path env request w :
  let p := local_path_of env (filename request) in
  List.filter (file_call_elsewhere p)
    (trace (snd (add_file_to_library env request w))) =
  List.filter (file_call_elsewhere p) (trace w).
Proof.
  intros p.
  assert (Hpp : String.eqb p p = true) by apply String.eqb_refl.
  assert (Hfin : forall tp w', (tp = None \/ tp = Some p) ->
            List.filter (file_call_elsewhere p)
              (trace (snd (finally_suite env tp w'))) =
            List.filter (file_call_elsewhere p) (trace w')).
  { intros tp w' [->| ->]; rewrite finally_suite_cases; [reflexivity|].
    destruct (String.eqb p ""); [reflexivity|].
    destruct (fs w' !! p); [destruct (remove_error env p (fs w'))|];
      same_trace; rewrite List.filter_app; simpl; rewrite Hpp; simpl;
      apply app_nil_r. }
  assert (Hres : List.filter (file_call_elsewhere p)
                   (trace (snd (resolve_stage env request w))) =
                 List.filter (file_call_elsewhere p) (trace w)).
  { rewrite resolve_stage_cases, load_or_create_cases. cbv zeta. simpl.
    destruct (load_library env _ (store w)) as [[lib|e] s1]; simpl.
    - rewrite <- !app_assoc, List.filter_app. simpl. apply app_nil_r.
    - destruct (create_new_library env _ s1) as [[lib|e'] s2]; simpl;
        rewrite <- ?app_assoc, List.filter_app; simpl; apply app_nil_r. }
  rewrite endpoint_world, try_suite_eq.
  destruct (resolve_stage env request w) as [[lib|e] w1]; cbn [fst snd] in *.
  2:{ rewrite Hfin by now left.
      now rewrite except_clauses_trace by reflexivity. }
  assert (Hdl : List.filter (file_call_elsewhere p)
                  (trace (snd (download_file_from_uri env (blob_uri request)
                                 (filename request) w1))) =
                List.filter (file_call_elsewhere p) (trace w)).
  { rewrite download_cases. cbv zeta. fold p.
    destruct (client_get env (blob_uri request)) as [resp|e];
      [destruct (is_success resp);
       [destruct (open_error env p (fs w1));
        [|destruct (write_error env p (content resp) _)]|]|];
      same_trace; rewrite List.filter_app; simpl; rewrite ?Hpp; simpl;
      rewrite app_nil_r; exact Hres. }
  destruct (download_file_from_uri env _ _ w1) as [[p'|e] w2] eqn:Hd;
    cbn [fst snd] in *.
  2:{ rewrite Hfin by now left.
      now rewrite except_clauses_trace by reflexivity. }
  apply download_returns_local_path in Hd. fold p in Hd. subst p'.
  rewrite Hfin by now right.
  rewrite except_clauses_trace by reflexivity.
  rewrite parse_stage_cases. cbv zeta.
  destruct (add_file env lib p (fs w2, store w2)) as [[v|e] [fs' s']];
    cbn [snd trace]; rewrite List.filter_app; simpl; rewrite Hpp; simpl;
    rewrite app_nil_r; exact Hdl.
Qed.

(** X6.  A file that already sits at the staging path does not survive a call
    whose fetch returns: the fetch overwrites it and the [finally] suite
    removes it, when [os.remove] is not refused. *)
Theorem file_at_staging_path_is_lost env request w (lib : Library) w1
    (p : string) w2 :
  resolve_stage env request w = (Ok lib, w1) ->
  download_file_from_uri env (blob_uri request) (filename request) w1 = (Ok p, w2) ->
  (forall fs0, remove_error env p fs0 = None) ->
  p = local_path_of env (filename request) /\
  (exists resp, client_get env (blob_uri request) = Ok resp /\
                fs w2 !! p = Some (content resp)) /\
  fs (snd (add_file_to_library env request w)) !! p = None.
Proof.
  intros Hres Hd Hrm.
  pose proof (download_returns_local_path _ _ _ _ _ _ Hd) as Hp.
  split; [exact Hp|]. split.
  - pose proof Hd as Hd'. rewrite download_cases in Hd'. cbv zeta in Hd'.
    destruct (client_get env (blob_uri request)) as [resp|e]; [|discriminate].
    destruct (is_success resp); [|discriminate].
    destruct (open_error env _ (fs w1)); [discriminate|].
    destruct (write_error env _ (content resp) _); [discriminate|].
    injection Hd' as <- <-. exists resp. split; [reflexivity|].
    cbn. apply lookup_insert_eq.
  - rewrite endpoint_world, try_suite_eq, Hres, Hd. cbn [fst snd].
    apply finally_suite_removes; [|exact Hrm].
    rewrite Hp. apply local_path_of_nonempty.
Qed.

End Endpoint.

(** ** Plain file names stay in the temporary directory *)

Lemma split_sep_nonempty (s : string) : split_sep s <> [].
Proof.
  destruct s as [|c s]; simpl; [discriminate|].
  destruct (Ascii.eqb c "/"%char); [discriminate|].
  destruct (split_sep s); discriminate.
Qed.

Lemma split_sep_app_sep (a b : string) :
  split_sep (a +:+ String "/"%char b) = split_sep a ++ split_sep b.
Proof.
  induction a as [|c a IH]; [reflexivity|].
  rewrite append_cons. simpl.
  destruct (Ascii.eqb c "/"%char); [now rewrite IH|].
  rewrite IH.
  destruct (split_sep a) as [|x xs] eqn:Ha; [now destruct (split_sep_nonempty a)|].
  reflexivity.
Qed.

Lemma split_sep_no_sep (s : string) : no_sep s = true -> split_sep s = [s].
Proof.
  induction s as [|c s IH]; [reflexivity|]. simpl.
  destruct (Ascii.eqb c "/"%char); [discriminate|].
  simpl. intros H. now rewrite (IH H).
Qed.

Lemma endswith_sep_inv (a : string) :
  endswith_sep a = true -> exists a', a = a' +:+ "/".
Proof.
  induction a as [|c a IH]; [discriminate|]. simpl.
  destruct a as [|c' a].
  - intros H. apply Ascii.eqb_eq in H. subst c. now exists "".
  - intros H. destruct (IH H) as [a' Ha']. exists (String c a').
    rewrite append_cons. now rewrite <- Ha'.
Qed.

Lemma starts_with_app (l x : list string) : starts_with l (l ++ x) = true.
Proof.
  induction l as [|a l IH]; [reflexivity|]. simpl.
  now rewrite String.eqb_refl, IH.
Qed.

Section StagingPath.

Context {Store Library : Type}.
Implicit Types (env : Env Store Library).

(** X7.  For a file name without any ["/"], the staging path resolves to the
    temporary directory followed by the single component
    [llmware_<filename>]: the staged file lies directly in the temporary
    directory, whatever that directory is. *)
Theorem plain_filename_stays_in_tempdir env (fname : string) :
  no_sep fname = true ->
  resolve (local_path_of env fname) =
    resolve (gettempdir env) ++ ["llmware_" +:+ fname] /\
  inside_dir (gettempdir env) (local_path_of env fname) = true.
Proof.
  intros Hns.
  set (comp := "llmware_" +:+ fname).
  assert (Hcomp : split_sep comp = [comp]).
  { apply split_sep_no_sep. subst comp.
    rewrite !append_cons, append_nil_l. simpl. exact Hns. }
  assert (Hstep : forall stack, resolve_step stack comp = comp :: stack).
  { intros stack. unfold resolve_step. subst comp.
    rewrite !append_cons, append_nil_l. reflexivity. }
  assert (Hres : resolve (local_path_of env fname) =
                 resolve (gettempdir env) ++ [comp]).
  { unfold resolve. rewrite local_path_of_verbatim. fold comp.
    unfold staging_prefix.
    destruct (String.eqb (gettempdir env) "") eqn:Hempty.
    - apply String.eqb_eq in Hempty. rewrite Hempty. cbn [orb].
      rewrite append_nil_l, Hcomp. simpl. rewrite ?Hstep. reflexivity.
    - cbn [orb]. destruct (endswith_sep (gettempdir env)) eqn:Hends.
      + destruct (endswith_sep_inv _ Hends) as [t' Ht']. rewrite Ht'.
        rewrite append_assoc.
        change ("/" +:+ comp) with (String "/"%char comp).
        rewrite !split_sep_app_sep, Hcomp. rewrite !fold_left_app. simpl.
        rewrite ?Hstep. reflexivity.
      + unfold sep. rewrite append_assoc.
        change ("/" +:+ comp) with (String "/"%char comp).
        rewrite split_sep_app_sep, Hcomp, fold_left_app. simpl.
        rewrite ?Hstep. reflexivity. }
  split; [exact Hres|].
  unfold inside_dir. rewrite Hres, starts_with_app. simpl.
  apply Nat.ltb_lt. rewrite length_app. simpl. lia.
Qed.

End StagingPath.

Lemma plain_filename_stays_in_tempdir_witness :
  no_sep "a.pdf" = true /\
  inside_dir (gettempdir Demo.env) (local_path_of Demo.env "a.pdf") = true.
Proof.
  split; [reflexivity|].
  exact (proj2 (plain_filename_stays_in_tempdir Demo.env "a.pdf" eq_refl)).
Defined.

(** ** The order of the calls, and what gets logged *)

Section CallsAndLogs.

Context {Store Library : Type}.
Implicit Types (env : Env Store Library) (w : World Store).
Implicit Types (request : AddFileRequest) (e : exn).

(** X8.  When the library is there, the blob arrives and is staged, and the
    parser leaves the staged file in place, the collaborators are called in
    this order and no other call is made: load the library, GET the blob,
    open and write the staging file, parse it, test that it exists, remove
    it -- whether the parser returned or raised, and whether the removal
    succeeds or not. *)
Theorem calls_of_a_staged_ingestion env request w (lib : Library) (s1 : Store)
    (resp : Response) (r : Result pyval) (fs3 : FS) (s3 : Store) :
  let n := library_name request in
  let p := local_path_of env (filename request) in
  load_library env n (store w) = (Ok lib, s1) ->
  client_get env (blob_uri request) = Ok resp ->
  is_success resp = true ->
  open_error env p (fs w) = None ->
  write_error env p (content resp) (<[p := []]> (fs w)) = None ->
  add_file env lib p (<[p := content resp]> (fs w), s1) = (r, (fs3, s3)) ->
  is_Some (fs3 !! p) ->
  List.filter is_call (trace (snd (add_file_to_library env request w))) =
  List.filter is_call (trace w) ++
    [CallLoadLibrary n; CallGet (blob_uri request) true 300; CallOpenWb p;
     CallWrite p (content resp); CallAddFile p; CallExists p; CallRemove p].
Proof.
  intros n p Hl Hget Hs Ho Hw Hp [d Hd].
  set (t1 := trace w ++ opening_logs request ++
             [CallLoadLibrary n;
              Log INFO [Lit "Loaded existing library: "; Val (PStr n)];
              Log INFO [Lit "Downloading file from: "; Val (PStr (blob_uri request))]]).
  assert (Hres : resolve_stage env request w = (Ok lib, mkWorld (fs w) s1 t1)).
  { rewrite resolve_stage_cases, load_or_create_cases. cbv zeta.
    cbn [fs store trace]. fold n. rewrite Hl. subst t1. same_trace. }
  set (t2 := t1 ++ [CallGet (blob_uri request) true 300; CallOpenWb p;
                    CallWrite p (content resp)]).
  assert (Hdl : download_file_from_uri env (blob_uri request) (filename request)
                  (mkWorld (fs w) s1 t1) =
                (Ok p, mkWorld (<[p := content resp]> (fs w)) s1 t2)).
  { rewrite download_cases. cbv zeta. fold p. cbn [fs store trace].
    rewrite Hget, Hs, Ho, Hw. reflexivity. }
  rewrite endpoint_world, try_suite_eq, Hres, Hdl. cbn [fst snd].
  rewrite parse_stage_cases. cbv zeta. cbn [fs store trace]. rewrite Hp.
  assert (Ht2 : List.filter is_call t2 = List.filter is_call (trace w) ++
      [CallLoadLibrary n; CallGet (blob_uri request) true 300; CallOpenWb p;
       CallWrite p (content resp)]).
  { subst t2 t1. unfold opening_logs. rewrite !List.filter_app. simpl.
    rewrite ?app_nil_r, <- ?app_assoc. reflexivity. }
  assert (Hne : String.eqb p "" = false) by apply local_path_of_nonempty.
  assert (Hfin : forall (res : Result AddFileResponse) t,
    List.filter is_call t = List.filter is_call (trace w) ++
      [CallLoadLibrary n; CallGet (blob_uri request) true 300; CallOpenWb p;
       CallWrite p (content resp); CallAddFile p] ->
    List.filter is_call
      (trace (snd (finally_suite env (Some p)
                     (snd (except_clauses request res (mkWorld fs3 s3 t)))))) =
    List.filter is_call (trace w) ++
      [CallLoadLibrary n; CallGet (blob_uri request) true 300; CallOpenWb p;
       CallWrite p (content resp); CallAddFile p; CallExists p; CallRemove p]).
  { intros res t Ht. rewrite finally_suite_cases, Hne.
    rewrite (proj1 (except_clauses_fs _ _ _)). cbn [fs]. rewrite Hd.
    assert (Hex : List.filter is_call
                    (trace (snd (except_clauses request res (mkWorld fs3 s3 t)))) =
                  List.filter is_call t).
    { apply except_clauses_trace. reflexivity. }
    destruct (remove_error env p fs3); cbn [snd trace];
      rewrite List.filter_app, Hex, Ht, <- app_assoc; reflexivity. }
  destruct r as [v|e]; cbn [fst snd]; apply Hfin;
    rewrite List.filter_app, Ht2, <- app_assoc; reflexivity.
Qed.

Lemma resolve_stage_error_logs env request w :
  List.filter is_error_log (trace (snd (resolve_stage env request w))) =
  List.filter is_error_log (trace w).
Proof.
  rewrite resolve_stage_cases, load_or_create_cases. cbv zeta. simpl.
  destruct (load_library env _ (store w)) as [[lib|e] s1]; simpl.
  - rewrite <- !app_assoc, List.filter_app. simpl. apply app_nil_r.
  - destruct (create_new_library env _ s1) as [[lib|e'] s2]; simpl;
      rewrite <- ?app_assoc, List.filter_app; simpl; apply app_nil_r.
Qed.

Lemma parse_stage_error_logs env request (lib : Library) (p : string) w :
  List.filter is_error_log (trace (snd (parse_stage env request lib p w))) =
  List.filter is_error_log (trace w).
Proof.
  rewrite parse_stage_cases. cbv zeta.
  destruct (add_file env lib p (fs w, store w)) as [[v|e] [fs' s']]; simpl;
    rewrite List.filter_app; simpl; apply app_nil_r.
Qed.

Lemma finally_suite_error_logs env (temp_file_path : option string) w :
  List.filter is_error_log (trace (snd (finally_suite env temp_file_path w))) =
  List.filter is_error_log (trace w).
Proof.
  rewrite finally_suite_cases.
  destruct temp_file_path as [p|]; [|reflexivity].
  destruct (String.eqb p ""); [reflexivity|].
  destruct (fs w !! p); [destruct (remove_error env p (fs w))|]; same_trace;
    rewrite List.filter_app; simpl; apply app_nil_r.
Qed.

(** X9.  Every exception the endpoint converts into a 400 or a 500 is logged
    once at ERROR level, with its text; a call that returns a response, and
    an exception that is not converted, log nothing at ERROR level -- a
    failed cleanup included. *)
Theorem one_error_record_per_converted_exception env request w :
  length (List.filter is_error_log (trace (snd (add_file_to_library env request w)))) =
  (length (List.filter is_error_log (trace w)) +
   match fst (add_file_to_library env request w) with
   | HTTPException _ _ => 1
   | _ => 0
   end)%nat.
Proof.
  rewrite endpoint_outcome, endpoint_world, finally_suite_error_logs.
  assert (Hsuite : List.filter is_error_log (trace (snd (try_suite env request w))) =
                   List.filter is_error_log (trace w)).
  { rewrite try_suite_eq.
    pose proof (resolve_stage_error_logs env request w) as Hr.
    destruct (resolve_stage env request w) as [[lib|e] w1]; cbn [snd] in *;
      [|exact Hr].
    pose proof (download_trace is_error_log env (blob_uri request)
                  (filename request) w1 ltac:(reflexivity) ltac:(reflexivity)
                  ltac:(reflexivity)) as Hd.
    destruct (download_file_from_uri env _ _ w1) as [[p|e] w2]; cbn [snd] in *;
      [|now rewrite Hd].
    now rewrite parse_stage_error_logs, Hd. }
  destruct (fst (fst (try_suite env request w))) as [resp|e];
    unfold except_clauses; cbn [fst snd].
  - rewrite Hsuite. lia.
  - destruct (is_HTTPError e); [|destruct (is_Exception e)]; cbn [fst snd];
      unfold record; cbn [trace];
      rewrite ?List.filter_app, ?Hsuite, ?length_app; simpl; lia.
Qed.

End CallsAndLogs.

(** ** The endpoint theorems at concrete inputs *)

Lemma resolution_failure_stops_pipeline_witness :
  load_library Scenarios.env_store_read_only "lib1" (store Demo.w0)
    = (Raise (Demo.LibraryNotFound "lib1"), []) /\
  create_new_library Scenarios.env_store_read_only "lib1" []
    = (Raise (Exn ExceptionC "store is read-only"), []) /\
  fst (add_file_to_library Scenarios.env_store_read_only Demo.request_a Demo.w0)
    = HTTPException 500 "Failed to add file to library: store is read-only".
Proof.
  split; [reflexivity|]. split; [reflexivity|].
  exact (proj1 (resolution_failure_stops_pipeline Scenarios.env_store_read_only
                  Demo.request_a Demo.w0 _ _ _ _ eq_refl eq_refl)).
Defined.

Lemma refused_open_is_500_and_stages_nothing_witness :
  resolve_stage Scenarios.env_open_refused Demo.request_a Demo.w0 =
    (Ok "lib1", snd (resolve_stage Scenarios.env_open_refused Demo.request_a Demo.w0)) /\
  open_error Scenarios.env_open_refused
    (local_path_of Scenarios.env_open_refused "a.pdf") (fs Demo.w0)
    = Some "Permission denied" /\
  fst (add_file_to_library Scenarios.env_open_refused Demo.request_a Demo.w0)
    = HTTPException 500 "Failed to add file to library: Permission denied".
Proof.
  assert (H : resolve_stage Scenarios.env_open_refused Demo.request_a Demo.w0 =
    (Ok "lib1", snd (resolve_stage Scenarios.env_open_refused Demo.request_a Demo.w0)))
    by reflexivity.
  split; [exact H|]. split; [reflexivity|].
  exact (proj1 (refused_open_is_500_and_stages_nothing Scenarios.env_open_refused
                  Demo.request_a Demo.w0 _ _ (mkResponse 200 Demo.pdf)
                  "Permission denied" H eq_refl eq_refl eq_refl)).
Defined.

Lemma non_mapping_parser_output_is_500_witness :
  truthy (PStr "done") = true /\
  (forall d, PStr "done" <> PDict d) /\
  fst (add_file_to_library Scenarios.env_parser_returns_text Demo.request_a Demo.w0)
    = HTTPException 500 "Failed to add file to library: not a dict".
Proof.
  assert (Hnd : forall d, PStr "done" <> PDict d) by (intros d; discriminate).
  split; [reflexivity|]. split; [exact Hnd|].
  exact (proj1 (non_mapping_parser_output_is_500 Scenarios.env_parser_returns_text
                  Demo.request_a Demo.w0 "lib1"
                  (snd (resolve_stage Scenarios.env_parser_returns_text
                          Demo.request_a Demo.w0))
                  "/tmp/llmware_a.pdf"
                  (snd (download_file_from_uri Scenarios.env_parser_returns_text
                          "https://example/a.pdf" "a.pdf"
                          (snd (resolve_stage Scenarios.env_parser_returns_text
                                  Demo.request_a Demo.w0))))
                  (PStr "done") _ _ eq_refl eq_refl eq_refl eq_refl Hnd)).
Defined.

Lemma file_at_staging_path_is_lost_witness :
  fs Scenarios.w_occupied !! "/tmp/llmware_a.pdf" = Some [Byte.x00] /\
  fs (snd (add_file_to_library Demo.env Demo.request_a Scenarios.w_occupied))
    !! "/tmp/llmware_a.pdf" = None.
Proof.
  split; [reflexivity|].
  exact (proj2 (proj2 (file_at_staging_path_is_lost Demo.env Demo.request_a
           Scenarios.w_occupied "lib1"
           (snd (resolve_stage Demo.env Demo.request_a Scenarios.w_occupied))
           "/tmp/llmware_a.pdf"
           (snd (download_file_from_uri Demo.env "https://example/a.pdf" "a.pdf"
                   (snd (resolve_stage Demo.env Demo.request_a Scenarios.w_occupied))))
           eq_refl eq_refl (fun _ => eq_refl)))).
Defined.

Lemma calls_of_a_staged_ingestion_witness :
  load_library Demo.env "lib1" (store Scenarios.w_with_library) = (Ok "lib1", ["lib1"]) /\
  List.filter is_call
    (trace (snd (add_file_to_library Demo.env Demo.request_a Scenarios.w_with_library))) =
  [CallLoadLibrary "lib1"; CallGet "https://example/a.pdf" true 300;
   CallOpenWb "/tmp/llmware_a.pdf"; CallWrite "/tmp/llmware_a.pdf" Demo.pdf;
   CallAddFile "/tmp/llmware_a.pdf"; CallExists "/tmp/llmware_a.pdf";
   CallRemove "/tmp/llmware_a.pdf"].
Proof.
  split; [reflexivity|].
  refine (calls_of_a_staged_ingestion Demo.env Demo.request_a
            Scenarios.w_with_library "lib1" ["lib1"] (mkResponse 200 Demo.pdf)
            (Ok (PDict [("docs_added", PInt 1)]))
            {[ "/tmp/llmware_a.pdf" := Demo.pdf ]} ["lib1"]
            eq_refl eq_refl eq_refl eq_refl eq_refl _ _).
  - reflexivity.
  - exists Demo.pdf. reflexivity.
Defined.

(** * The library and embedding endpoints *)

Ltac unfold_A :=
  unfold api_info in *; unfold call in *;
  unfold abind, aret, lift, api_emit in *.

Section ApiProperties.

Context {Store Library : Type}.
Implicit Types (backend : Backend Store Library) (w : ApiWorld Store).
Implicit Types (e : exn).

Lemma call_run {T} (ev : ApiEvent) (f : Store -> Result T * Store) w :
  call ev f w =
  (fst (f (api_store w)),
   mkApiWorld (snd (f (api_store w))) (api_trace w ++ [ev])).
Proof.
  unfold_A. unfold api_record. simpl. now destruct (f (api_store w)).
Qed.

Lemma guarded_cases {T} (ok : Z) (body : AM T) log_msg exc_info fail prefix w :
  fst (guarded ok body log_msg exc_info fail prefix w) =
  match fst (body w) with
  | Ok a => Responded ok a
  | Raise e =>
      if is_Exception e then Failed fail (prefix +:+ exn_str e) else Escaped e
  end.
Proof.
  unfold guarded. destruct (body w) as [[a|e] w']; [reflexivity|].
  cbn [fst]. destruct (is_Exception e); reflexivity.
Qed.

(** The body shared by [create_library] and [get_library], once the library
    object is there. *)
Lemma status_query_cases backend (lib : Library) (k : list EmbeddingStatusItem -> LibraryResponse) w :
  abind (call ApiGetEmbeddingStatus (lw_get_embedding_status backend lib))
    (fun raw =>
       abind (lift (status_items backend (or_empty raw)))
         (fun embedding_status => aret (k embedding_status))) w =
  let w' := mkApiWorld (snd (lw_get_embedding_status backend lib (api_store w)))
              (api_trace w ++ [ApiGetEmbeddingStatus]) in
  match fst (lw_get_embedding_status backend lib (api_store w)) with
  | Raise e => (Raise e, w')
  | Ok raw =>
      match status_items backend (or_empty raw) with
      | Raise e => (Raise e, w')
      | Ok items => (Ok (k items), w')
      end
  end.
Proof.
  unfold abind at 1. rewrite call_run. cbv zeta.
  destruct (lw_get_embedding_status backend lib (api_store w)) as [[raw|e] s'];
    cbn [fst snd]; [|reflexivity].
  unfold abind, lift, aret.
  destruct (status_items backend (or_empty raw)); reflexivity.
Qed.


(** X11.  [delete_library] loads the library first.  When the load raises an
    [Exception] -- the library is missing, say -- the answer is 500, not 404,
    and the store's delete is never called; when the load and the delete
    succeed, the delete was called once, for the requested name and with
    [confirm_delete=True], and the answer names the library. *)
Theorem delete_library_loads_first backend (name : string) w :
  (forall e (s1 : Store),
     lw_load_library backend name (api_store w) = (Raise e, s1) ->
     is_Exception e = true ->
     fst (delete_library backend name w) =
       Failed 500 ("Failed to delete library: " +:+ exn_str e) /\
     api_store (snd (delete_library backend name w)) = s1 /\
     List.filter is_api_call (api_trace (snd (delete_library backend name w))) =
       List.filter is_api_call (api_trace w) ++ [ApiLoadLibrary name]) /\
  (forall (lib : Library) (s1 s2 : Store),
     lw_load_library backend name (api_store w) = (Ok lib, s1) ->
     lw_delete_library backend lib name true s1 = (Ok tt, s2) ->
     fst (delete_library backend name w) =
       Responded 200 (mkDeleteLibraryResponse name
                        ("Library '" +:+ name +:+ "' deleted successfully")) /\
     api_store (snd (delete_library backend name w)) = s2 /\
     List.filter is_api_call (api_trace (snd (delete_library backend name w))) =
       List.filter is_api_call (api_trace w) ++
       [ApiLoadLibrary name; ApiDeleteLibrary name true]).
Proof.
  split.
  - intros e s1 Hl He.
    assert (Hrun : delete_library backend name w =
      (Failed 500 ("Failed to delete library: " +:+ exn_str e),
       mkApiWorld s1
         (api_trace w ++
          [ApiLog INFO false [Lit "Deleting library: "; Val (PStr name)];
           ApiLoadLibrary name;
           ApiLog ERROR false [Lit "Error deleting library "; Val (PStr name);
                               Lit ": "; Val (PStr (exn_str e))]]))).
    { unfold delete_library, guarded, api_info, api_emit, abind.
      cbn beta iota. rewrite call_run.
      cbn [api_record api_store api_trace]. rewrite Hl. cbn [fst snd].
      rewrite He. unfold api_record. cbn [api_store api_trace].
      now rewrite <- !app_assoc. }
    rewrite Hrun. cbn [fst snd api_store api_trace].
    split; [reflexivity|]. split; [reflexivity|].
    rewrite !List.filter_app. reflexivity.
  - intros lib s1 s2 Hl Hd.
    assert (Hrun : delete_library backend name w =
      (Responded 200 (mkDeleteLibraryResponse name
                        ("Library '" +:+ name +:+ "' deleted successfully")),
       mkApiWorld s2
         (api_trace w ++
          [ApiLog INFO false [Lit "Deleting library: "; Val (PStr name)];
           ApiLoadLibrary name; ApiDeleteLibrary name true]))).
    { unfold delete_library, guarded, api_info, api_emit, abind.
      cbn beta iota. rewrite call_run.
      cbn [api_record api_store api_trace]. rewrite Hl. cbn [fst snd].
      rewrite call_run. cbn [api_store api_trace]. rewrite Hd.
      cbn [fst snd aret]. now rewrite <- !app_assoc. }
    rewrite Hrun. cbn [fst snd api_store api_trace].
    split; [reflexivity|]. split; [reflexivity|].
    rewrite !List.filter_app. reflexivity.
Qed.

(** X12.  [create_embeddings] loads the library before it looks for the key.
    With the library loaded and [OPENAI_API_KEY] unset or empty, the answer
    is 400, nothing is installed and nothing is logged as an error.  When the
    load raises, the environment is not even consulted -- so a missing
    library hides a missing key: an [HTTPException] leaves as it is, with its
    own status and detail and without an error record; any other [Exception]
    is logged and answered 500. *)
Theorem create_embeddings_needs_library_then_key backend (request : EmbeddingRequest) w :
  let n := emb_library_name request in
  let opening := ApiLog INFO false [Lit "Creating embeddings for library: ";
                                    Val (PStr n)] in
  (forall (lib : Library) (s1 : Store),
     lw_load_library backend n (api_store w) = (Ok lib, s1) ->
     key_missing (environ_get backend "OPENAI_API_KEY") = true ->
     create_embeddings backend request w =
       (Failed 400 "OPENAI_API_KEY not configured",
        mkApiWorld s1 (api_trace w ++ [opening; ApiLoadLibrary n;
                                       ApiEnvironGet "OPENAI_API_KEY"]))) /\
  (forall e (s1 : Store),
     lw_load_library backend n (api_store w) = (Raise e, s1) ->
     http_exception_of backend e = None ->
     is_Exception e = true ->
     create_embeddings backend request w =
       (Failed 500 ("Failed to create embeddings: " +:+ exn_str e),
        mkApiWorld s1
          (api_trace w ++
           [opening; ApiLoadLibrary n;
            ApiLog ERROR false [Lit "Error creating embeddings: ";
                                Val (PStr (exn_str e))]]))) /\
  (forall e (s1 : Store) (status : Z) (detail : string),
     lw_load_library backend n (api_store w) = (Raise e, s1) ->
     http_exception_of backend e = Some (status, detail) ->
     create_embeddings backend request w =
       (Failed status detail,
        mkApiWorld s1 (api_trace w ++ [opening; ApiLoadLibrary n]))).
Proof.
  intros n opening. split; [|split].
  - intros lib s1 Hl Hk.
    unfold create_embeddings, api_info, api_emit, abind. cbn beta iota.
    rewrite call_run. cbn [api_record api_store api_trace]. fold n.
    rewrite Hl. cbn [fst snd]. rewrite Hk.
    unfold api_record. cbn [api_store api_trace]. now rewrite <- !app_assoc.
  - intros e s1 Hl Hh He.
    unfold create_embeddings, api_info, api_emit, abind. cbn beta iota.
    rewrite call_run. cbn [api_record api_store api_trace]. fold n.
    rewrite Hl. cbn [fst snd]. unfold embeddings_failure. rewrite Hh, He.
    unfold api_record. cbn [api_store api_trace]. now rewrite <- !app_assoc.
  - intros e s1 status detail Hl Hh.
    unfold create_embeddings, api_info, api_emit, abind. cbn beta iota.
    rewrite call_run. cbn [api_record api_store api_trace]. fold n.
    rewrite Hl. cbn [fst snd]. unfold embeddings_failure. rewrite Hh.
    now rewrite <- !app_assoc.
Qed.

(** X13.  With the library loaded and a non-empty key, [create_embeddings]
    makes these calls and no others, in this order: the configured vector
    database is read, the embedding is installed for the requested model with
    that database, a batch size of 100 and the key, the status is asked for
    under the name the library object carries, and the library's own status
    is read; the answer is 200 and carries that last status as it is. *)
Theorem create_embeddings_installs_then_reports backend (request : EmbeddingRequest) w
    (lib : Library) (s1 s2 s3 s4 : Store) (key vector_db : string) (update : pyval)
    (status : option (list pyval)) :
  let n := emb_library_name request in
  let model := emb_embedding_model request in
  lw_load_library backend n (api_store w) = (Ok lib, s1) ->
  environ_get backend "OPENAI_API_KEY" = Some key ->
  String.eqb key "" = false ->
  get_vector_db backend s1 = Ok vector_db ->
  lw_install_new_embedding backend lib model vector_db 100 key s1 = (Ok tt, s2) ->
  lw_status_get_embedding_status backend (library_name_of backend lib) model s2
    = (Ok update, s3) ->
  lw_get_embedding_status backend lib s3 = (Ok status, s4) ->
  fst (create_embeddings backend request w) =
    Responded 200 (mkEmbeddingsResult n model status "Embeddings created successfully") /\
  api_store (snd (create_embeddings backend request w)) = s4 /\
  List.filter is_api_call (api_trace (snd (create_embeddings backend request w))) =
    List.filter is_api_call (api_trace w) ++
    [ApiLoadLibrary n; ApiEnvironGet "OPENAI_API_KEY"; ApiGetVectorDb;
     ApiInstallNewEmbedding model vector_db 100 key;
     ApiStatusGetEmbeddingStatus (library_name_of backend lib) model;
     ApiGetEmbeddingStatus].
Proof.
  intros n model Hl Hk Hne Hv Hi Hu Hs.
  assert (Hrun : exists t,
    create_embeddings backend request w =
      (Responded 200 (mkEmbeddingsResult n model status
                        "Embeddings created successfully"),
       mkApiWorld s4 t) /\
    List.filter is_api_call t =
      List.filter is_api_call (api_trace w) ++
      [ApiLoadLibrary n; ApiEnvironGet "OPENAI_API_KEY"; ApiGetVectorDb;
       ApiInstallNewEmbedding model vector_db 100 key;
       ApiStatusGetEmbeddingStatus (library_name_of backend lib) model;
       ApiGetEmbeddingStatus]).
  { eexists. split.
    - unfold create_embeddings, install_vector_embeddings, call, api_info,
        api_emit, abind, api_record, key_missing.
      cbn [api_store api_trace]. fold n model.
      rewrite Hl, Hk, Hne. cbn [default from_option id api_store api_trace].
      rewrite Hv. cbn [api_store api_trace]. rewrite Hi.
      cbn [api_store api_trace]. rewrite Hu. cbn [api_store api_trace].
      rewrite Hs. reflexivity.
    - rewrite <- ?app_assoc, !List.filter_app. simpl.
      rewrite ?app_nil_r. reflexivity. }
  destruct Hrun as (t & -> & Ht). cbn [fst snd api_store api_trace]. easy.
Qed.

(** X14.  [create_library] goes straight to [create_new_library], without
    ever loading.  When that call and the status query return and every
    status entry is accepted, the answer is 201 with the requested name, the
    items, a file count of 0 and the creation time; when
    [create_new_library] raises an [Exception], the answer is 500 and the
    error is logged with its traceback. *)
Theorem create_library_answers_201_or_500 backend (name : string) w :
  (forall (lib : Library) (s1 s2 : Store) raw items,
     lw_create_new_library backend name (api_store w) = (Ok lib, s1) ->
     lw_get_embedding_status backend lib s1 = (Ok raw, s2) ->
     status_items backend (or_empty raw) = Ok items ->
     create_library backend name w =
       (Responded 201 (mkLibraryResponse name items (Some 0)
                         (Some (now_isoformat backend))),
        mkApiWorld s2 (api_trace w ++ [ApiCreateNewLibrary name;
                                       ApiGetEmbeddingStatus]))) /\
  (forall e (s1 : Store),
     lw_create_new_library backend name (api_store w) = (Raise e, s1) ->
     is_Exception e = true ->
     create_library backend name w =
       (Failed 500 ("Failed to create library: " +:+ exn_str e),
        mkApiWorld s1
          (api_trace w ++
           [ApiCreateNewLibrary name;
            ApiLog ERROR true [Lit "Error creating library: ";
                               Val (PStr (exn_str e))]]))) /\
  List.filter is_api_load (api_trace (snd (create_library backend name w))) =
    List.filter is_api_load (api_trace w).
Proof.
  split; [|split].
  - intros lib s1 s2 raw items Hc Hs Hi.
    unfold create_library, guarded. unfold abind at 1. rewrite call_run, Hc.
    cbn [fst snd]. rewrite status_query_cases. cbv zeta.
    cbn [api_store api_trace]. rewrite Hs. cbn [fst snd]. rewrite Hi.
    now rewrite <- !app_assoc.
  - intros e s1 Hc He.
    unfold create_library, guarded. unfold abind at 1. rewrite call_run, Hc.
    cbn [fst snd]. rewrite He. unfold api_record. cbn [api_store api_trace].
    now rewrite <- !app_assoc.
  - unfold create_library, guarded. unfold abind at 1. rewrite call_run.
    destruct (lw_create_new_library backend name (api_store w)) as [[lib|e] s1];
      cbn [fst snd].
    + rewrite status_query_cases. cbv zeta. cbn [api_store api_trace].
      destruct (lw_get_embedding_status backend lib s1) as [[raw|e] s2];
        cbn [fst snd];
        [destruct (status_items backend (or_empty raw)) as [items|e]|];
        try destruct (is_Exception e); cbn [snd api_record api_trace];
        rewrite ?List.filter_app; simpl; now rewrite ?app_nil_r.
    + destruct (is_Exception e); cbn [snd api_record api_trace];
        rewrite ?List.filter_app; simpl; now rewrite ?app_nil_r.
Qed.

(** X15.  The status entries are converted all or nothing, in order: when
    the conversion returns there is one item per entry, each the conversion
    of its entry; when it raises, the exception is that of the first entry
    that is not accepted. *)
Theorem status_items_all_or_first_failure backend (raw : list pyval) :
  match status_items backend raw with
  | Ok items =>
      Forall2 (fun entry item => EmbeddingStatusItem_init backend entry = Ok item)
        raw items
  | Raise e =>
      exists pre entry post items,
        raw = pre ++ entry :: post /\
        status_items backend pre = Ok items /\
        EmbeddingStatusItem_init backend entry = Raise e
  end.
Proof.
  induction raw as [|entry raw IH]; simpl; [constructor|].
  destruct (EmbeddingStatusItem_init backend entry) as [i|e] eqn:Hi.
  - destruct (status_items backend raw) as [items|e].
    + now constructor.
    + destruct IH as (pre & bad & post & items & -> & Hpre & Hbad).
      exists (entry :: pre), bad, post, (i :: items).
      split; [reflexivity|]. split; [|exact Hbad].
      simpl. now rewrite Hi, Hpre.
  - exists [], entry, raw, []. easy.
Qed.

(** A status entry that is a dictionary without any of the five keys
    of the model becomes the item of the defaults -- "no embeddings", 0 and
    "NA" three times -- whatever other keys it carries. *)
Theorem status_entry_without_keys_gets_defaults backend (d : list (string * pyval)) :
  lacks_item_keys d ->
  EmbeddingStatusItem_init backend (PDict d) = Ok default_item.
Proof.
  intros (H1 & H2 & H3 & H4 & H5).
  unfold EmbeddingStatusItem_init, field. now rewrite H1, H2, H3, H4, H5.
Qed.

Lemma library_names_of_dicts backend (ds : list (list (string * pyval))) :
  library_names_of backend (map PDict ds) =
  Ok (List.filter truthy (map (fun d => dict_get d "library_name") ds)).
Proof.
  induction ds as [|d ds IH]; [reflexivity|].
  simpl. rewrite IH. now destruct (truthy (dict_get d "library_name")).
Qed.

Lemma accept_all_names backend (ds : list (list (string * pyval))) :
  (forall s, accept_str backend (PStr s) = Some s) ->
  Forall (fun d => dict_get d "library_name" = PNone \/
                   exists s, dict_get d "library_name" = PStr s) ds ->
  accept_all backend
    (List.filter truthy (map (fun d => dict_get d "library_name") ds)) =
  Some (card_names ds).
Proof.
  intros Hstr. induction 1 as [|d ds Hd _ IH]; [reflexivity|].
  simpl. destruct Hd as [Hd|[s Hd]]; rewrite Hd; simpl.
  - exact IH.
  - destruct (String.eqb s ""); simpl; [exact IH|].
    now rewrite Hstr, IH.
Qed.

(** X16.  When the store reports cards that are dictionaries whose
    ["library_name"] is a string or is missing, [get_all_libraries] answers
    200 with the non-empty names, in the order of the cards: a card without a
    name, or with an empty one, is left out without an error.  A card that
    is not a dictionary makes the answer 500. *)
Theorem get_all_libraries_lists_named_cards backend w :
  (forall (ds : list (list (string * pyval))) (s1 : Store),
     (forall s, accept_str backend (PStr s) = Some s) ->
     lw_get_all_library_cards backend (api_store w) = (Ok (map PDict ds), s1) ->
     Forall (fun d => dict_get d "library_name" = PNone \/
                      exists s, dict_get d "library_name" = PStr s) ds ->
     fst (get_all_libraries backend w) =
       Responded 200 (mkLibraryListResponse (card_names ds))) /\
  (forall (ds : list (list (string * pyval))) (bad : pyval) (rest : list pyval)
          (s1 : Store),
     lw_get_all_library_cards backend (api_store w)
       = (Ok (map PDict ds ++ bad :: rest), s1) ->
     (forall d, bad <> PDict d) ->
     fst (get_all_libraries backend w) =
       Failed 500 ("Failed to fetch libraries: " +:+ attribute_error_str backend bad)).
Proof.
  split.
  - intros ds s1 Hstr Hc Hds.
    unfold get_all_libraries. rewrite guarded_cases.
    unfold abind at 1. rewrite call_run, Hc. cbn [fst snd].
    unfold abind, lift. rewrite library_names_of_dicts.
    unfold LibraryListResponse_init. now rewrite (accept_all_names _ _ Hstr Hds).
  - intros ds bad rest s1 Hc Hbad.
    unfold get_all_libraries. rewrite guarded_cases.
    unfold abind at 1. rewrite call_run, Hc. cbn [fst snd].
    unfold abind, lift.
    assert (Hn : library_names_of backend (map PDict ds ++ bad :: rest) =
                 Raise (Exn ExceptionC (attribute_error_str backend bad))).
    { clear Hc. induction ds as [|d ds IH]; simpl.
      - destruct bad; try reflexivity. now destruct (Hbad d).
      - now rewrite IH. }
    rewrite Hn. reflexivity.
Qed.

End ApiProperties.

(** ** The endpoint theorems of this part at concrete inputs *)


Lemma delete_library_loads_first_witness :
  lw_load_library ApiDemo.backend "nope" (api_store ApiDemo.w1)
    = (Raise (Demo.LibraryNotFound "nope"), ["lib1"; "lib2"]) /\
  fst (delete_library ApiDemo.backend "nope" ApiDemo.w1)
    = Failed 500 "Failed to delete library: library not found: nope" /\
  api_store (snd (delete_library ApiDemo.backend "lib1" ApiDemo.w1)) = ["lib2"].
Proof.
  split; [reflexivity|]. split.
  - exact (proj1 (proj1 (delete_library_loads_first ApiDemo.backend "nope" ApiDemo.w1)
                    _ _ eq_refl eq_refl)).
  - exact (proj1 (proj2 (proj2 (delete_library_loads_first ApiDemo.backend "lib1"
                                  ApiDemo.w1)
                           "lib1" _ ["lib2"] eq_refl eq_refl))).
Defined.

Lemma create_embeddings_needs_library_then_key_witness :
  key_missing (environ_get ApiDemo.backend "OPENAI_API_KEY") = true /\
  fst (create_embeddings ApiDemo.backend
         (mkEmbeddingRequest "lib1" "text-embedding-3-small") ApiDemo.w1)
    = Failed 400 "OPENAI_API_KEY not configured" /\
  fst (create_embeddings ApiDemo.backend
         (mkEmbeddingRequest "nope" "text-embedding-3-small") ApiDemo.w1)
    = Failed 500 "Failed to create embeddings: library not found: nope" /\
  http_exception_of ApiDemo.backend_forbidden ApiDemo.Forbidden
    = Some (403, "library is private") /\
  fst (create_embeddings ApiDemo.backend_forbidden
         (mkEmbeddingRequest "lib1" "text-embedding-3-small") ApiDemo.w1)
    = Failed 403 "library is private".
Proof.
  split; [reflexivity|]. split; [|split; [|split; [reflexivity|]]].
  - exact (f_equal fst
             (proj1 (create_embeddings_needs_library_then_key ApiDemo.backend
                       (mkEmbeddingRequest "lib1" "text-embedding-3-small") ApiDemo.w1)
                "lib1" _ eq_refl eq_refl)).
  - exact (f_equal fst
             (proj1 (proj2 (create_embeddings_needs_library_then_key ApiDemo.backend
                              (mkEmbeddingRequest "nope" "text-embedding-3-small")
                              ApiDemo.w1))
                _ _ eq_refl eq_refl eq_refl)).
  - exact (f_equal fst
             (proj2 (proj2 (create_embeddings_needs_library_then_key
                              ApiDemo.backend_forbidden
                              (mkEmbeddingRequest "lib1" "text-embedding-3-small")
                              ApiDemo.w1))
                ApiDemo.Forbidden _ 403 "library is private" eq_refl eq_refl)).
Defined.

Lemma create_embeddings_installs_then_reports_witness :
  environ_get ApiDemo.backend_with_key "OPENAI_API_KEY" = Some "sk-test" /\
  List.filter is_api_call
    (api_trace (snd (create_embeddings ApiDemo.backend_with_key
                       (mkEmbeddingRequest "lib1" "text-embedding-3-small")
                       ApiDemo.w1))) =
  [ApiLoadLibrary "lib1"; ApiEnvironGet "OPENAI_API_KEY"; ApiGetVectorDb;
   ApiInstallNewEmbedding "text-embedding-3-small" "chromadb" 100 "sk-test";
   ApiStatusGetEmbeddingStatus "lib1" "text-embedding-3-small";
   ApiGetEmbeddingStatus].
Proof.
  split; [reflexivity|].
  exact (proj2 (proj2 (create_embeddings_installs_then_reports
           ApiDemo.backend_with_key
           (mkEmbeddingRequest "lib1" "text-embedding-3-small") ApiDemo.w1
           "lib1" _ _ _ _ "sk-test" "chromadb" _ _
           eq_refl eq_refl eq_refl eq_refl eq_refl eq_refl eq_refl))).
Defined.

Lemma create_library_answers_201_or_500_witness :
  lw_create_new_library ApiDemo.backend "lib3" (api_store ApiDemo.w1)
    = (Ok "lib3", ["lib3"; "lib1"; "lib2"]) /\
  fst (create_library ApiDemo.backend "lib3" ApiDemo.w1) =
    Responded 201 (mkLibraryResponse "lib3" [] (Some 0)
                     (Some "2025-01-01T00:00:00+00:00")).
Proof.
  split; [reflexivity|].
  exact (f_equal fst
           (proj1 (create_library_answers_201_or_500 ApiDemo.backend "lib3" ApiDemo.w1)
              "lib3" _ _ None [] eq_refl eq_refl eq_refl)).
Defined.

Lemma status_entry_without_keys_gets_defaults_witness :
  lacks_item_keys [("note", PStr "fresh")] /\
  EmbeddingStatusItem_init ApiDemo.backend (PDict [("note", PStr "fresh")])
    = Ok default_item.
Proof.
  assert (H : lacks_item_keys [("note", PStr "fresh")])
    by (repeat split; reflexivity).
  split; [exact H|].
  exact (status_entry_without_keys_gets_defaults ApiDemo.backend _ H).
Defined.

Lemma get_all_libraries_lists_named_cards_witness :
  lw_get_all_library_cards ApiDemo.backend (api_store ApiDemo.w1)
    = (Ok (map PDict [[("library_name", PStr "lib1")];
                      [("library_name", PStr "lib2")]]), ["lib1"; "lib2"]) /\
  fst (get_all_libraries ApiDemo.backend ApiDemo.w1)
    = Responded 200 (mkLibraryListResponse ["lib1"; "lib2"]).
Proof.
  split; [reflexivity|].
  refine (proj1 (get_all_libraries_lists_named_cards ApiDemo.backend ApiDemo.w1)
            [[("library_name", PStr "lib1")]; [("library_name", PStr "lib2")]]
            _ (fun s => eq_refl) eq_refl _).
  constructor; [right; eexists; reflexivity|].
  constructor; [right; eexists; reflexivity|]. constructor.
Defined.

(** * Start-up *)

Lemma endswith_sep_app (a b : string) :
  b <> "" -> endswith_sep (a +:+ b) = endswith_sep b.
Proof.
  intros Hb. induction a as [|c a IH]; [reflexivity|].
  rewrite append_cons. simpl.
  destruct (a +:+ b) as [|c' r] eqn:Hab; [|exact IH].
  destruct a; [now rewrite append_nil_l in Hab|discriminate].
Qed.

Section BootProperties.

Context {Machine : Type}.
Implicit Types (host : Host Machine) (w : BootWorld Machine) (e : exn).

Ltac unfold_B :=
  unfold makedirs_if_missing, boot_exists, boot_call, boot_info, boot_print in *;
  unfold bbind, bret, boot_emit, boot_record in *.

(** X17.  The file looked for is [<repo>/gpt2/tokenizer.json], with a single
    separator after the repository path.  When it is there, both the service
    and the script only say so: no directory is made, nothing is downloaded,
    and the machine is as it was. *)
Theorem tokenizer_in_place_means_no_change host w :
  tokenizer_file host =
    join_prefix (get_model_repo_path host) +:+ "gpt2/tokenizer.json" /\
  (path_exists host (tokenizer_file host) (machine w) = true ->
   ensure_gpt2_tokenizer_exists host w =
     (Ok tt, mkBootWorld (machine w)
               (boot_trace w ++ [BootExists (tokenizer_file host);
                                 BootLog INFO [Lit "GPT2 tokenizer found."]])) /\
   ensure_gpt2_tokenizer_exists_script host w =
     (Ok tt, mkBootWorld (machine w)
               (boot_trace w ++ [BootExists (tokenizer_file host);
                                 BootPrint [Lit "GPT2 tokenizer found. Proceeding..."]]))).
Proof.
  split.
  - unfold tokenizer_file, gpt2_path, join_prefix.
    set (repo := get_model_repo_path host).
    assert (Hg : os_path_join repo "gpt2" =
                 (if (String.eqb repo "" || endswith_sep repo)%bool
                  then repo else repo +:+ sep) +:+ "gpt2").
    { unfold os_path_join. cbn [startswith_sep Ascii.eqb]. simpl.
      destruct (String.eqb repo "" || endswith_sep repo)%bool; [reflexivity|].
      unfold sep. now rewrite append_assoc. }
    rewrite Hg.
    set (pre := if (String.eqb repo "" || endswith_sep repo)%bool
                then repo else repo +:+ sep).
    unfold os_path_join. simpl.
    rewrite endswith_sep_app by discriminate.
    change ("gpt2") with (String "g" "pt2") at 1.
    rewrite append_nonempty_r. simpl.
    unfold sep. rewrite append_assoc. reflexivity.
  - intros Hex. fold (gpt2_path host). fold (tokenizer_file host).
    unfold ensure_gpt2_tokenizer_exists, ensure_gpt2_tokenizer_exists_script.
    fold (gpt2_path host). fold (tokenizer_file host).
    unfold_B. cbn [machine boot_trace]. rewrite Hex. cbn [negb machine boot_trace].
    now rewrite <- !app_assoc.
Qed.







End BootProperties.


Lemma tokenizer_in_place_means_no_change_witness :
  path_exists BootDemo.host_offline (tokenizer_file BootDemo.host_offline)
    (machine BootDemo.ready) = true /\
  machine (snd (ensure_gpt2_tokenizer_exists BootDemo.host_offline BootDemo.ready))
    = machine BootDemo.ready.
Proof.
  split; [reflexivity|].
  exact (f_equal (fun r => machine (snd r))
           (proj1 (proj2 (tokenizer_in_place_means_no_change
                            BootDemo.host_offline BootDemo.ready) eq_refl))).
Defined.

(** * The text sample of [semantic_search] *)

Lemma firstn_length_exact {T} (n : nat) (l : list T) :
  (n <= List.length l)%nat -> List.length (List.firstn n l) = n.
Proof.
  revert l. induction n as [|n IH]; intros l Hn; [reflexivity|].
  destruct l as [|x l]; simpl in *; [lia|]. rewrite IH; [reflexivity|lia].
Qed.

Lemma firstn_of_firstn_app {T} (n : nat) (l x : list T) :
  (n <= List.length l)%nat ->
  List.firstn n (List.firstn n l ++ x) = List.firstn n l.
Proof.
  revert l. induction n as [|n IH]; intros l Hn; [reflexivity|].
  destruct l as [|y l]; simpl in *; [lia|]. rewrite IH; [reflexivity|lia].
Qed.

(** X20.  The sample printed for a hit is the text itself when it has at most
    125 characters; otherwise it is the first 125 characters followed by
    [" ... "], 130 characters in all -- so a sample never exceeds 130
    characters, and a text of 126 to 129 characters is printed longer than
    it is.  Characters are code points, as [len] and slices count them. *)
Theorem text_sample_is_at_most_130_characters (text : list N) :
  ((List.length text <= 125)%nat -> text_sample text = text) /\
  ((125 < List.length text)%nat ->
     text_sample text = List.firstn 125 text ++ ellipsis /\
     List.length (text_sample text) = 130%nat /\
     List.firstn 125 (text_sample text) = List.firstn 125 text) /\
  (List.length (text_sample text) <= 130)%nat.
Proof.
  unfold text_sample.
  destruct (Nat.ltb_spec 125 (List.length text)) as [Hlong|Hshort].
  - split; [lia|].
    assert (Hlen : List.length (List.firstn 125 text ++ ellipsis) = 130%nat).
    { rewrite List.length_app, firstn_length_exact by lia. reflexivity. }
    split; [|lia].
    intros _. split; [reflexivity|]. split; [exact Hlen|].
    apply firstn_of_firstn_app. lia.
  - split; [reflexivity|]. split; lia.
Qed.

Lemma text_sample_is_at_most_130_characters_witness :
  (List.length (List.repeat 233%N 100) <= 125)%nat /\
  text_sample (List.repeat 233%N 100) = List.repeat 233%N 100.
Proof.
  assert (H : (List.length (List.repeat 233%N 100) <= 125)%nat)
    by (apply Nat.leb_le; reflexivity).
  split; [exact H|].
  exact (proj1 (text_sample_is_at_most_130_characters (List.repeat 233%N 100)) H).
Defined.
